(** * The offline ammonia engine ([src/ammonia-app/src/ammonia_engine.js])

    A shallow embedding of the prediction pipeline
    [feature engineering -> standardScale -> forestPredict -> expm1 ->
     emersonPhysics -> classifyRisk] and of the heat-map grid evaluator.

    ** Number model.
    A JavaScript number is modelled as a real number extended with the three
    IEEE special values the engine can produce or receive: [NaN], [+Infinity]
    and [-Infinity].  Arithmetic on finite values is the exact arithmetic of
    [R] (rounding and overflow of binary64 are outside the model); arithmetic
    involving a special value follows the ECMAScript rules ([NaN] is
    absorbing, [Infinity - Infinity] and [0 * Infinity] are [NaN], [x / 0] is
    an infinity or [NaN], every comparison with [NaN] is false).  The model
    has one zero, which plays the role of [+0].

    Statements proved in this model are worded so that they also hold of the
    binary64 program: they speak of the engine's own operations, or carry
    the magnitude or domain bounds under which nothing overflows.  What
    rounding and overflow change is shown on a second embedding, [B64], over
    primitive binary64 floats. *)

From Stdlib Require Import Reals Lra Lia List ZArith Bool.
From Stdlib Require String Floats Uint63.
Import String.StringSyntax.
Import ListNotations.

Local Open Scope R_scope.

(** ** JavaScript numbers *)

Module JS.

Inductive number : Type :=
  | NaN
  | NInf
  | Fin (x : R)
  | PInf.

Definition Rltb (x y : R) : bool := if Rlt_dec x y then true else false.
Definition Reqb (x y : R) : bool := if Req_dec_T x y then true else false.

(** Unary minus. *)
Definition neg (a : number) : number :=
  match a with
  | NaN => NaN
  | NInf => PInf
  | Fin x => Fin (- x)
  | PInf => NInf
  end.

(** The infinity carrying the sign of [x] ([x] is not zero when this is
    used; zero counts as positive, it is [+0]). *)
Definition signed_inf (x : R) : number := if Rltb x 0 then NInf else PInf.

(** [a + b] *)
Definition add (a b : number) : number :=
  match a, b with
  | NaN, _ | _, NaN => NaN
  | PInf, NInf | NInf, PInf => NaN
  | PInf, _ | _, PInf => PInf
  | NInf, _ | _, NInf => NInf
  | Fin x, Fin y => Fin (x + y)
  end.

(** [a - b] *)
Definition sub (a b : number) : number := add a (neg b).

(** [a * b] *)
Definition mul (a b : number) : number :=
  match a, b with
  | NaN, _ | _, NaN => NaN
  | Fin x, Fin y => Fin (x * y)
  | Fin x, PInf | PInf, Fin x => if Reqb x 0 then NaN else signed_inf x
  | Fin x, NInf | NInf, Fin x => if Reqb x 0 then NaN else neg (signed_inf x)
  | PInf, PInf | NInf, NInf => PInf
  | PInf, NInf | NInf, PInf => NInf
  end.

(** [a / b] *)
Definition div (a b : number) : number :=
  match a, b with
  | NaN, _ | _, NaN => NaN
  | Fin x, Fin y =>
      if Reqb y 0
      then (if Reqb x 0 then NaN else signed_inf x)
      else Fin (x / y)
  | Fin _, PInf | Fin _, NInf => Fin 0
  | PInf, Fin y => signed_inf y
  | NInf, Fin y => neg (signed_inf y)
  | PInf, PInf | PInf, NInf | NInf, PInf | NInf, NInf => NaN
  end.

(** [a < b]: false as soon as one side is [NaN]. *)
Definition lt (a b : number) : bool :=
  match a, b with
  | NaN, _ | _, NaN => false
  | _, NInf => false
  | NInf, _ => true
  | PInf, _ => false
  | Fin _, PInf => true
  | Fin x, Fin y => Rltb x y
  end.

(** [a <= b] *)
Definition le (a b : number) : bool :=
  match a, b with
  | NaN, _ | _, NaN => false
  | NInf, _ => true
  | _, PInf => true
  | _, NInf => false
  | PInf, _ => false
  | Fin x, Fin y => negb (Rltb y x)
  end.

(** [Math.max(a, b)] and [Math.min(a, b)]: [NaN] if either argument is. *)
Definition Math_max (a b : number) : number :=
  match a, b with
  | NaN, _ | _, NaN => NaN
  | PInf, _ | _, PInf => PInf
  | NInf, c | c, NInf => c
  | Fin x, Fin y => Fin (Rmax x y)
  end.

Definition Math_min (a b : number) : number :=
  match a, b with
  | NaN, _ | _, NaN => NaN
  | NInf, _ | _, NInf => NInf
  | PInf, c | c, PInf => c
  | Fin x, Fin y => Fin (Rmin x y)
  end.

(** [Math.tanh(a)] *)
Definition Math_tanh (a : number) : number :=
  match a with
  | NaN => NaN
  | NInf => Fin (-1)
  | Fin x => Fin (tanh x)
  | PInf => Fin 1
  end.

(** [Math.expm1(a)] *)
Definition Math_expm1 (a : number) : number :=
  match a with
  | NaN => NaN
  | NInf => Fin (-1)
  | Fin x => Fin (exp x - 1)
  | PInf => PInf
  end.

(** [Math.pow(10, e)]: the engine only ever raises the literal [10]. *)
Definition Math_pow10 (e : number) : number :=
  match e with
  | NaN => NaN
  | NInf => Fin 0
  | Fin x => Fin (Rpower 10 x)
  | PInf => PInf
  end.

(** A loop counter used as a number. *)
Definition of_nat (n : nat) : number := Fin (INR n).

(** [Number.isFinite] *)
Definition isFinite (a : number) : bool :=
  match a with Fin _ => true | _ => false end.

Definition isNaN (a : number) : bool :=
  match a with NaN => true | _ => false end.

End JS.

Import JS.

Declare Scope js_scope.
Delimit Scope js_scope with js.
Bind Scope js_scope with number.
Arguments Fin x%_R.
Infix "+" := add : js_scope.
Infix "-" := sub : js_scope.
Infix "*" := mul : js_scope.
Infix "/" := div : js_scope.
Infix "<?" := lt (at level 70, no associativity) : js_scope.

(** ** Arrays

    The engine's arrays are short lists of numbers.  Reading past the end of
    an array yields [undefined], which every arithmetic operator turns into
    [NaN]. *)

Definition index (l : list number) (i : nat) : number := nth i l NaN.

(** [l.map((v, i) => f(v, i))] *)
Fixpoint mapi_from {A B : Type} (f : A -> nat -> B) (i : nat) (l : list A)
  : list B :=
  match l with
  | [] => []
  | v :: l' => f v i :: mapi_from f (S i) l'
  end.

Definition mapi {A B : Type} (f : A -> nat -> B) (l : list A) : list B :=
  mapi_from f 0 l.

(** ** Scaler parameters

    Feature order: [Temp, EC, pH, pH_Temp, EC_pH]. *)

Definition SCALER_MEANS : list number :=
  [Fin 26.5; Fin 1180.0; Fin 7.2; Fin 191.28; Fin 8496.0].

Definition SCALER_STDS : list number :=
  [Fin 3.8; Fin 350.0; Fin 0.45; Fin 30.5; Fin 2800.0].

Definition standardScale (features : list number) : list number :=
  mapi (fun v i => (v - index SCALER_MEANS i) / index SCALER_STDS i)%js
       features.

(** ** Core regression model *)

Module MODEL.
Definition intercept : number := Fin (-0.12).
Module weights.
Definition Temp : number := Fin 0.08.
Definition EC : number := Fin 0.22.
Definition pH : number := Fin (-0.05).
Definition pH_Temp : number := Fin 0.12.
Definition EC_pH : number := Fin 0.11.
End weights.
Definition saturation : number := Fin 2.8.
End MODEL.

Definition forestPredict (scaledFeatures : list number) : number :=
  let Temp_s := index scaledFeatures 0 in
  let EC_s := index scaledFeatures 1 in
  let pH_s := index scaledFeatures 2 in
  let pH_Temp_s := index scaledFeatures 3 in
  let EC_pH_s := index scaledFeatures 4 in
  (* Linear combination *)
  let pred :=
    (MODEL.intercept
     + MODEL.weights.Temp * Temp_s
     + MODEL.weights.EC * EC_s
     + MODEL.weights.pH * pH_s
     + MODEL.weights.pH_Temp * pH_Temp_s
     + MODEL.weights.EC_pH * EC_pH_s)%js in
  (* Second-order interaction *)
  let pred := (pred + Fin 0.04 * Temp_s * EC_s)%js in
  let pred := (pred + Fin 0.03 * EC_s * pH_s)%js in
  let pred := (pred + Fin 0.02 * Temp_s * pH_Temp_s)%js in
  (* tanh saturation envelope *)
  let pred := (MODEL.saturation * Math_tanh (pred / MODEL.saturation))%js in
  (* Clamp *)
  Math_max (Fin (-0.05)) (Math_min pred (Fin 3.2)).

(** ** Emerson physics *)

Definition emersonPhysics (tan_mg_L temp_c pH : number) : number :=
  let temp_k := (temp_c + Fin 273.15)%js in
  let pKa := (Fin 0.09018 + Fin 2729.92 / temp_k)%js in
  let nh3_fraction := (Fin 1.0 / (Fin 1.0 + Math_pow10 (pKa - pH)))%js in
  (tan_mg_L * nh3_fraction)%js.

(** ** Risk classifier *)

Inductive RiskTier : Type := SAFE | WARNING | CRITICAL.

Definition classifyRisk (toxicNH3 : number) : RiskTier :=
  if (toxicNH3 <? Fin 0.05)%js then SAFE
  else if (toxicNH3 <? Fin 0.34)%js then WARNING
  else CRITICAL.

(** ** Full pipeline *)

Record PredictionResult : Type := mkResult {
  TAN : number;
  toxicNH3 : number;
  risk : RiskTier
}.

Definition predictAmmoniaRisk (temp_c pH ec : number) : PredictionResult :=
  (* 1. Feature engineering *)
  let pH_Temp := (pH * temp_c)%js in
  let EC_pH := (ec * pH)%js in
  let raw := [temp_c; ec; pH; pH_Temp; EC_pH] in
  (* 2. StandardScaler transform *)
  let scaled := standardScale raw in
  (* 3. Model prediction *)
  let pred_log := forestPredict scaled in
  (* 4. Inverse transform *)
  let pred_TAN := Math_expm1 pred_log in
  (* 5. Emerson physics *)
  let toxic_NH3 := emersonPhysics pred_TAN temp_c pH in
  (* 6. Risk classification *)
  let risk := classifyRisk toxic_NH3 in
  {| TAN := Math_max (Fin 0) pred_TAN;
     toxicNH3 := Math_max (Fin 0) toxic_NH3;
     risk := risk |}.

(** ** Heat-map grid *)

Module Cell.
Record t : Type := mk {
  temp : number;
  pH : number;
  TAN : number;
  toxicNH3 : number;
  risk : RiskTier
}.
End Cell.

(** [{ temp: t, pH: p, ...r }] *)
Definition spread (t p : number) (r : PredictionResult) : Cell.t :=
  {| Cell.temp := t; Cell.pH := p;
     Cell.TAN := TAN r; Cell.toxicNH3 := toxicNH3 r; Cell.risk := risk r |}.

(** The two nested [for] loops run their counters over [0 .. steps - 1] and
    push one cell per iteration; [steps] is a non-negative integer. *)
Definition generateHeatmapData (tempRange phRange : number * number)
    (ec : number) (steps : nat) : list (list Cell.t) :=
  let tStep := ((snd tempRange - fst tempRange) / (of_nat steps - Fin 1))%js in
  let pStep := ((snd phRange - fst phRange) / (of_nat steps - Fin 1))%js in
  map (fun i =>
         map (fun j =>
                let t := (fst tempRange + of_nat i * tStep)%js in
                let p := (fst phRange + of_nat j * pStep)%js in
                let r := predictAmmoniaRisk t p ec in
                spread t p r)
             (seq 0 steps))
      (seq 0 steps).

(** The value of the defaulted parameter [steps = 8]. *)
Definition default_steps : nat := 8.

(** ** The engine in binary64

    The same functions once more, on IEEE binary64 numbers (primitive
    floats), to exhibit what rounding and overflow do.  Every arithmetic
    operator and comparison is the binary64 one.  [Math.tanh], [Math.expm1]
    and [Math.pow] are implementation-approximated in ECMAScript: they are
    modelled only on the arguments for which the standard fixes the result
    ([NaN], the zeros, the infinities); on any other argument the result is
    left undetermined, written [None], and everything computed from an
    undetermined value is undetermined. *)

#[local] Set Warnings "-inexact-float".

Module B64.
Import PrimFloat.
Local Open Scope float_scope.

(** A binary64 value, or a value the standard does not determine. *)
Definition number : Type := option float.

Definition lift2 (f : float -> float -> float) (a b : number) : number :=
  match a, b with
  | Some x, Some y => Some (f x y)
  | _, _ => None
  end.

Definition bind (a : number) (f : float -> number) : number :=
  match a with
  | Some x => f x
  | None => None
  end.

Definition add : number -> number -> number := lift2 PrimFloat.add.
Definition sub : number -> number -> number := lift2 PrimFloat.sub.
Definition mul : number -> number -> number := lift2 PrimFloat.mul.
Definition div : number -> number -> number := lift2 PrimFloat.div.

(** [Math.max] and [Math.min] on two numbers: [NaN] if either is, and [+0]
    counts as larger than [-0]. *)
Definition max_float (a b : float) : float :=
  if is_nan a || is_nan b then nan
  else if ltb a b then b
  else if ltb b a then a
  else if get_sign a then b else a.

Definition min_float (a b : float) : float :=
  if is_nan a || is_nan b then nan
  else if ltb a b then a
  else if ltb b a then b
  else if get_sign a then a else b.

Definition Math_max : number -> number -> number := lift2 max_float.
Definition Math_min : number -> number -> number := lift2 min_float.

(** [Math.tanh]: fixed on [NaN], [+0], [-0], [+Infinity] and [-Infinity]. *)
Definition Math_tanh (a : number) : number :=
  bind a (fun v =>
    if is_nan v then Some nan
    else if is_zero v then Some v
    else if is_infinity v then Some (if get_sign v then -1 else 1)
    else None).

(** [Math.expm1]: fixed on [NaN], the zeros and the infinities. *)
Definition Math_expm1 (a : number) : number :=
  bind a (fun v =>
    if is_nan v then Some nan
    else if is_zero v then Some v
    else if is_infinity v then Some (if get_sign v then -1 else infinity)
    else None).

(** [Math.pow(10, e)]: fixed on [NaN], the zeros and the infinities. *)
Definition Math_pow10 (e : number) : number :=
  bind e (fun v =>
    if is_nan v then Some nan
    else if is_zero v then Some 1
    else if is_infinity v then Some (if get_sign v then 0 else infinity)
    else None).

(** A loop counter used as a number. *)
Definition of_nat (n : nat) : number :=
  Some (of_uint63 (Uint63.of_Z (Z.of_nat n))).

Declare Scope b64_scope.
Delimit Scope b64_scope with b64.
Infix "+" := add : b64_scope.
Infix "-" := sub : b64_scope.
Infix "*" := mul : b64_scope.
Infix "/" := div : b64_scope.

Definition index (l : list number) (i : nat) : number := nth i l (Some nan).

Definition SCALER_MEANS : list number :=
  [Some 26.5; Some 1180.0; Some 7.2; Some 191.28; Some 8496.0].

Definition SCALER_STDS : list number :=
  [Some 3.8; Some 350.0; Some 0.45; Some 30.5; Some 2800.0].

Definition standardScale (features : list number) : list number :=
  mapi (fun v i => (v - index SCALER_MEANS i) / index SCALER_STDS i)%b64
       features.

Definition forestPredict (scaledFeatures : list number) : number :=
  let Temp_s := index scaledFeatures 0 in
  let EC_s := index scaledFeatures 1 in
  let pH_s := index scaledFeatures 2 in
  let pH_Temp_s := index scaledFeatures 3 in
  let EC_pH_s := index scaledFeatures 4 in
  let pred :=
    (Some (-0.12)
     + Some 0.08 * Temp_s
     + Some 0.22 * EC_s
     + Some (-0.05) * pH_s
     + Some 0.12 * pH_Temp_s
     + Some 0.11 * EC_pH_s)%b64 in
  let pred := (pred + Some 0.04 * Temp_s * EC_s)%b64 in
  let pred := (pred + Some 0.03 * EC_s * pH_s)%b64 in
  let pred := (pred + Some 0.02 * Temp_s * pH_Temp_s)%b64 in
  let pred := (Some 2.8 * Math_tanh (pred / Some 2.8))%b64 in
  Math_max (Some (-0.05)) (Math_min pred (Some 3.2)).

Definition emersonPhysics (tan_mg_L temp_c pH : number) : number :=
  let temp_k := (temp_c + Some 273.15)%b64 in
  let pKa := (Some 0.09018 + Some 2729.92 / temp_k)%b64 in
  let nh3_fraction := (Some 1.0 / (Some 1.0 + Math_pow10 (pKa - pH)))%b64 in
  (tan_mg_L * nh3_fraction)%b64.

Definition classifyRisk (toxicNH3 : number) : option RiskTier :=
  match toxicNH3 with
  | Some v =>
      Some (if ltb v 0.05 then SAFE
            else if ltb v 0.34 then WARNING
            else CRITICAL)
  | None => None
  end.

Record PredictionResult : Type := mkResult {
  TAN : number;
  toxicNH3 : number;
  risk : option RiskTier
}.

Definition predictAmmoniaRisk (temp_c pH ec : number) : PredictionResult :=
  let pH_Temp := (pH * temp_c)%b64 in
  let EC_pH := (ec * pH)%b64 in
  let raw := [temp_c; ec; pH; pH_Temp; EC_pH] in
  let scaled := standardScale raw in
  let pred_log := forestPredict scaled in
  let pred_TAN := Math_expm1 pred_log in
  let toxic_NH3 := emersonPhysics pred_TAN temp_c pH in
  let risk := classifyRisk toxic_NH3 in
  {| TAN := Math_max (Some 0) pred_TAN;
     toxicNH3 := Math_max (Some 0) toxic_NH3;
     risk := risk |}.

Record Cell : Type := mkCell {
  cell_temp : number;
  cell_pH : number;
  cell_result : PredictionResult
}.

Definition generateHeatmapData (tempRange phRange : number * number)
    (ec : number) (steps : nat) : list (list Cell) :=
  let tStep := ((snd tempRange - fst tempRange) / (of_nat steps - Some 1))%b64 in
  let pStep := ((snd phRange - fst phRange) / (of_nat steps - Some 1))%b64 in
  map (fun i =>
         map (fun j =>
                let t := (fst tempRange + of_nat i * tStep)%b64 in
                let p := (fst phRange + of_nat j * pStep)%b64 in
                let r := predictAmmoniaRisk t p ec in
                {| cell_temp := t; cell_pH := p; cell_result := r |})
             (seq 0 steps))
      (seq 0 steps).


End B64.

(** ** The regression surrogate, as the specification words it *)

Module Spec.

(** The five linear weights, by feature position. *)
Definition WEIGHTS : list number :=
  [MODEL.weights.Temp; MODEL.weights.EC; MODEL.weights.pH;
   MODEL.weights.pH_Temp; MODEL.weights.EC_pH].

(** [intercept + sum_i weight[i] * scaledFeatures[i]] *)
Definition linear (s : list number) : number :=
  fold_left (fun acc wx => (acc + fst wx * snd wx)%js)
            (combine WEIGHTS s) MODEL.intercept.

(** [0.04 Temp_s EC_s + 0.03 EC_s pH_s + 0.02 Temp_s (pH Temp)_s] *)
Definition cross (s : list number) : number :=
  (Fin 0.04 * index s 0 * index s 1
   + Fin 0.03 * index s 1 * index s 2
   + Fin 0.02 * index s 0 * index s 3)%js.

(** [2.8 tanh (v / 2.8)] *)
Definition saturate (v : number) : number :=
  (Fin 2.8 * Math_tanh (v / Fin 2.8))%js.

(** Hard floor and ceiling. *)
Definition clamp (lo hi v : number) : number :=
  if (v <? lo)%js then lo else if (hi <? v)%js then hi else v.

Definition predict (s : list number) : number :=
  clamp (Fin (-0.05)) (Fin 3.2) (saturate (linear s + cross s)%js).

End Spec.

(** ** Auxiliary notions used in the statements *)

(** Membership in the clamp range, with the engine's own comparisons. *)
Definition in_clamp_range (x : number) : bool :=
  le (Fin (-0.05)) x && le x (Fin 3.2).

(** The unionized fraction [1 / (1 + 10 ^ (pKa - pH))] over the reals. *)
Definition pKa_of (temp_c : R) : R := 0.09018 + 2729.92 / (temp_c + 273.15).

Definition fraction_of (temp_c pH : R) : R :=
  1.0 / (1.0 + Rpower 10 (pKa_of temp_c - pH)).

(** The cell in row [i], column [j]. *)
Definition cell_at (grid : list (list Cell.t)) (i j : nat) : option Cell.t :=
  match nth_error grid i with
  | Some row => nth_error row j
  | None => None
  end.

(** The [i]-th of [steps] evenly spaced samples over [[lo, hi]]. *)
Definition sample (lo hi : R) (steps i : nat) : R :=
  lo + INR i * ((hi - lo) / (INR steps - 1)).

(** ** The procedural tree ensemble ([makeTree], [predictTree])

    A tree object either has a [leaf] key or the four keys [feature],
    [threshold], [left], [right]. *)

Inductive tree : Type :=
  | leaf_node (leaf : number)
  | split_node (feature : nat) (threshold : number) (left right : tree).

(** [a > b] *)
Definition gt (a b : number) : bool := lt b a.

(** Truthiness of a number: [NaN] and zero are falsy ([undefined], read past
    the end of an array, is falsy too, and [index] already reads it as
    [NaN]). *)
Definition truthy (v : number) : bool :=
  match v with
  | NaN => false
  | Fin x => negb (Reqb x 0)
  | _ => true
  end.

(** [v || d] *)
Definition or_else (v d : number) : number := if truthy v then v else d.

(** [depth] is a non-negative integer: the recursion stops at [depth === 0]
    and otherwise calls itself at [depth - 1]. *)
Fixpoint makeTree (depth : nat) (baseLeaf : number)
    (featureBias : list number) : tree :=
  match depth with
  | O => leaf_node baseLeaf
  | S depth' =>
      let f := (S depth' mod 5)%nat in
      let bias := or_else (index featureBias f) (Fin 0) in
      split_node f bias
        (makeTree depth' (baseLeaf * Fin 0.92)%js
           (mapi (fun v i => if (i =? f)%nat then (v - Fin 0.3)%js else v)
                 featureBias))
        (makeTree depth' (baseLeaf * Fin 1.08)%js
           (mapi (fun v i => if (i =? f)%nat then (v + Fin 0.3)%js else v)
                 featureBias))
  end.

Fixpoint predictTree (t : tree) (x : list number) : number :=
  match t with
  | leaf_node leaf => leaf
  | split_node feature threshold l r =>
      if le (index x feature) threshold
      then predictTree l x
      else predictTree r x
  end.

(** Shape measures used in the statements about trees. *)
Fixpoint count_leaves (t : tree) : nat :=
  match t with
  | leaf_node _ => 1
  | split_node _ _ l r => count_leaves l + count_leaves r
  end.

(** Every leaf sits exactly [d] comparisons below the root. *)
Fixpoint perfect (d : nat) (t : tree) : Prop :=
  match t, d with
  | leaf_node _, O => True
  | split_node _ _ l r, S d' => perfect d' l /\ perfect d' r
  | _, _ => False
  end.

(** The features a tree compares, and its thresholds. *)
Fixpoint features_of (t : tree) : list nat :=
  match t with
  | leaf_node _ => []
  | split_node f _ l r => f :: features_of l ++ features_of r
  end.

Fixpoint thresholds_of (t : tree) : list number :=
  match t with
  | leaf_node _ => []
  | split_node _ th l r => th :: thresholds_of l ++ thresholds_of r
  end.

(** ** The dashboard ([app/index.js]) *)

Local Open Scope string_scope.

(** Color tokens. *)
Module C.
Definition textDim : String.string := "#7f8c8d".
Definition safe : String.string := "#2ecc71".
Definition warning : String.string := "#f1c40f".
Definition critical : String.string := "#e74c3c".
Definition criticalBg : String.string := "rgba(231,76,60,0.12)".
Definition warningBg : String.string := "rgba(241,196,15,0.12)".
Definition safeBg : String.string := "rgba(46,204,113,0.12)".
End C.

(** What [GaugeBar] computes before rendering: the filled share [pct] (the
    fill is [pct * 100] percent wide) and the fill color. *)
Module Gauge.
Record t : Type := mk {
  pct : number;
  barColor : String.string
}.
End Gauge.

Definition GaugeBar (value maxValue : number) : Gauge.t :=
  let pct := Math_min (value / maxValue)%js (Fin 1) in
  let barColor :=
    if gt pct (Fin 0.68) then C.critical
    else if gt pct (Fin 0.1) then C.warning
    else C.safe in
  {| Gauge.pct := pct; Gauge.barColor := barColor |}.

(** The defaulted property [maxValue = 0.5]. *)
Definition default_maxValue : number := Fin 0.5.

(** The state of [HomeScreen]: the three text fields, the last result
    ([null] before the first prediction) and the error line. *)
Module HomeScreen.
Record state : Type := mk {
  temp : String.string;
  pH : String.string;
  ec : String.string;
  result : option PredictionResult;
  error : String.string
}.

Definition initial : state :=
  {| temp := ""; pH := ""; ec := ""; result := None; error := "" |}.

Definition setError (s : state) (msg : String.string) : state :=
  {| temp := temp s; pH := pH s; ec := ec s; result := result s;
     error := msg |}.

Definition setResult (s : state) (r : PredictionResult) : state :=
  {| temp := temp s; pH := pH s; ec := ec s; result := Some r;
     error := error s |}.
End HomeScreen.

Section Dashboard.

(** The global [parseFloat], left abstract. *)
Variable parseFloat : String.string -> number.

(** [validate] returns the parsed triple [{ t, p, e }] or [null]; either way
    it writes the error line. *)
Definition validate (s : HomeScreen.state)
  : HomeScreen.state * option (number * number * number) :=
  let t := parseFloat (HomeScreen.temp s) in
  let p := parseFloat (HomeScreen.pH s) in
  let e := parseFloat (HomeScreen.ec s) in
  if isNaN t || isNaN p || isNaN e then
    (HomeScreen.setError s "Please enter valid numbers in all fields.", None)
  else if lt t (Fin 5) || gt t (Fin 40) then
    (HomeScreen.setError s "Temperature should be between 5–40 °C.", None)
  else if lt p (Fin 5) || gt p (Fin 10) then
    (HomeScreen.setError s "pH should be between 5.0–10.0.", None)
  else if lt e (Fin 50) || gt e (Fin 3000) then
    (HomeScreen.setError s "EC should be between 50–3000 µS/cm.", None)
  else
    (HomeScreen.setError s "", Some (t, p, e)).

Definition handlePredict (s : HomeScreen.state) : HomeScreen.state :=
  match validate s with
  | (s', None) => s'
  | (s', Some (t, p, e)) =>
      HomeScreen.setResult s' (predictAmmoniaRisk t p e)
  end.

End Dashboard.

Definition riskColor (result : option PredictionResult) : String.string :=
  match result with
  | Some r =>
      match risk r with
      | SAFE => C.safe
      | WARNING => C.warning
      | CRITICAL => C.critical
      end
  | None => C.textDim
  end.

Definition riskBg (result : option PredictionResult) : String.string :=
  match result with
  | Some r =>
      match risk r with
      | SAFE => C.safeBg
      | WARNING => C.warningBg
      | CRITICAL => C.criticalBg
      end
  | None => "transparent"
  end.

Definition advice (result : option PredictionResult) : String.string :=
  match result with
  | Some r =>
      match risk r with
      | SAFE => "Conditions are optimal. Continue normal feeding."
      | WARNING => "STOP FEEDING immediately. Monitor water closely."
      | CRITICAL => "MORTALITY RISK! Perform emergency water exchange now."
      end
  | None => ""
  end.

(** The value handed to the gauge: [result ? result.toxicNH3 : 0]. *)
Definition gauge_value (result : option PredictionResult) : number :=
  match result with
  | Some r => toxicNH3 r
  | None => Fin 0
  end.

Local Close Scope string_scope.

(** The valid physical domain of the three inputs (the ranges the dashboard
    enforces before it calls the engine), tested with the engine's own
    comparison. *)
Definition in_valid_domain (temp_c pH ec : number) : bool :=
  le (Fin 5) temp_c && le temp_c (Fin 40) &&
  le (Fin 5) pH && le pH (Fin 10) &&
  le (Fin 50) ec && le ec (Fin 3000).

(** The order of the tiers by severity. *)
Definition severity (r : RiskTier) : nat :=
  match r with
  | SAFE => 0
  | WARNING => 1
  | CRITICAL => 2
  end.

(** ** Proof automation for the number model *)

Ltac js_step :=
  match goal with
  | |- context [Rlt_dec ?a ?b] => destruct (Rlt_dec a b)
  | |- context [Req_dec_T ?a ?b] => destruct (Req_dec_T a b)
  | |- context [Rle_dec ?a ?b] => destruct (Rle_dec a b)
  | H : context [Rlt_dec ?a ?b] |- _ => destruct (Rlt_dec a b)
  | H : context [Req_dec_T ?a ?b] |- _ => destruct (Req_dec_T a b)
  | H : context [Rle_dec ?a ?b] |- _ => destruct (Rle_dec a b)
  end.

Ltac js_cases :=
  repeat first
    [ progress (unfold Rltb, Reqb, signed_inf, Rmax, Rmin in * )
    | js_step
    | progress (cbn [neg negb andb orb] in * ) ].

Ltac js_done :=
  try reflexivity; try discriminate; try contradiction; try lra;
  try (exfalso; match goal with H : ?a <> ?b |- _ => apply H; lra end).

(** * Properties *)

(** ** Elementary facts about the number model *)

Lemma Rltb_true (x y : R) : Rltb x y = true <-> x < y.
Proof. js_cases; split; intros; try reflexivity; try discriminate; lra. Qed.

Lemma Rltb_false (x y : R) : Rltb x y = false <-> y <= x.
Proof. js_cases; split; intros; try reflexivity; try discriminate; lra. Qed.

Lemma add_assoc (a b c : number) : (a + (b + c) = a + b + c)%js.
Proof. destruct a, b, c; simpl; try reflexivity; f_equal; ring. Qed.

Lemma add_NaN_l (a : number) : (NaN + a)%js = NaN.
Proof. destruct a; reflexivity. Qed.

Lemma add_NaN_r (a : number) : (a + NaN)%js = NaN.
Proof. destruct a; reflexivity. Qed.

Lemma sub_NaN_l (a : number) : (NaN - a)%js = NaN.
Proof. destruct a; reflexivity. Qed.

Lemma mul_NaN_l (a : number) : (NaN * a)%js = NaN.
Proof. destruct a; reflexivity. Qed.

Lemma mul_NaN_r (a : number) : (a * NaN)%js = NaN.
Proof. destruct a; reflexivity. Qed.

Lemma div_NaN_l (a : number) : (NaN / a)%js = NaN.
Proof. destruct a; reflexivity. Qed.

Lemma div_NaN_r (a : number) : (a / NaN)%js = NaN.
Proof. destruct a; reflexivity. Qed.

Lemma div_Fin (x y : R) : y <> 0 -> (Fin x / Fin y)%js = Fin (x / y).
Proof. intros Hy; simpl; js_cases; try contradiction; reflexivity. Qed.

Lemma div_pos_zero (x : R) : 0 < x -> (Fin x / Fin 0)%js = PInf.
Proof. intros Hx; simpl; js_cases; js_done. Qed.

Lemma div_neg_zero (x : R) : x < 0 -> (Fin x / Fin 0)%js = NInf.
Proof. intros Hx; simpl; js_cases; js_done. Qed.

Lemma div_zero_zero : (Fin 0 / Fin 0)%js = NaN.
Proof. simpl; js_cases; js_done. Qed.

Lemma Math_max_NaN_r (a : number) : Math_max a NaN = NaN.
Proof. destruct a; reflexivity. Qed.

Lemma Math_min_NaN_l (a : number) : Math_min NaN a = NaN.
Proof. destruct a; reflexivity. Qed.

Lemma max_min_clamp (lo hi : R) (v : number) :
  lo <= hi ->
  Math_max (Fin lo) (Math_min v (Fin hi)) = Spec.clamp (Fin lo) (Fin hi) v.
Proof.
  intros Hle; unfold Spec.clamp; destruct v; simpl; try reflexivity;
    js_cases; try reflexivity; try (f_equal; lra); lra.
Qed.

(** C1: on every 5-tuple of scaled features (special values included)
    [forestPredict] is the specification's four-step surface: the positional
    linear combination, plus the three fixed cross terms, then the saturation
    [2.8 * tanh (v / 2.8)], then the hard clamp to [-0.05, 3.2]. *)
Theorem forestPredict_is_spec_surface (a b c d e : number) :
  forestPredict [a; b; c; d; e] = Spec.predict [a; b; c; d; e].
Proof.
  unfold forestPredict, Spec.predict.
  rewrite max_min_clamp by lra.
  unfold Spec.saturate, Spec.linear, Spec.cross, Spec.WEIGHTS, index,
    MODEL.saturation; cbn [combine fold_left nth fst snd].
  rewrite !add_assoc.
  reflexivity.
Qed.

(** ** Risk classifier *)

(** C2: [classifyRisk] is a total function with lower-closed tiers: below
    [0.05] it answers [SAFE], from [0.05] (included) to [0.34] (excluded)
    [WARNING], from [0.34] on [CRITICAL]; in particular [0.05] itself is
    [WARNING] and [0.34] itself is [CRITICAL]. *)
Theorem classifyRisk_tiers :
  (forall x, (x <? Fin 0.05)%js = true -> classifyRisk x = SAFE) /\
  (forall x, le (Fin 0.05) x = true -> (x <? Fin 0.34)%js = true ->
             classifyRisk x = WARNING) /\
  (forall x, le (Fin 0.34) x = true -> classifyRisk x = CRITICAL) /\
  classifyRisk (Fin 0.05) = WARNING /\
  classifyRisk (Fin 0.34) = CRITICAL.
Proof.
  unfold classifyRisk; repeat split.
  - intros x H; rewrite H; reflexivity.
  - intros x H1 H2; rewrite H2.
    destruct x; simpl in *; try discriminate; js_cases;
      try reflexivity; try discriminate; lra.
  - intros x H; destruct x; simpl in *; try discriminate; js_cases;
      try reflexivity; try discriminate; lra.
  - simpl; js_cases; try reflexivity; lra.
  - simpl; js_cases; try reflexivity; lra.
Qed.

Lemma classifyRisk_tiers_witness :
  classifyRisk (Fin 0.01) = SAFE /\
  classifyRisk (Fin 0.2) = WARNING /\
  classifyRisk (Fin 1) = CRITICAL.
Proof.
  destruct classifyRisk_tiers as (H1 & H2 & H3 & _).
  repeat split; [apply H1 | apply H2 | apply H3]; simpl;
    rewrite ?negb_true_iff, ?Rltb_true, ?Rltb_false; lra.
Defined.

Lemma classifyRisk_NaN : classifyRisk NaN = CRITICAL.
Proof. reflexivity. Qed.

(** Flooring at zero does not change the tier: a negative value and zero are
    both [SAFE], and [Math.max(0, NaN)] is [NaN]. *)
Lemma classifyRisk_floor (x : number) :
  classifyRisk (Math_max (Fin 0) x) = classifyRisk x.
Proof.
  unfold classifyRisk; destruct x; simpl; try reflexivity;
    js_cases; try reflexivity; lra.
Qed.

(** ** [NaN] propagation *)

Create Rewrite HintDb js_nan.
#[local] Hint Rewrite add_NaN_l add_NaN_r sub_NaN_l mul_NaN_l mul_NaN_r
  div_NaN_l div_NaN_r Math_max_NaN_r Math_min_NaN_l : js_nan.

Lemma standardScale_5 (a b c d e : number) :
  standardScale [a; b; c; d; e] =
  [((a - Fin 26.5) / Fin 3.8)%js; ((b - Fin 1180.0) / Fin 350.0)%js;
   ((c - Fin 7.2) / Fin 0.45)%js; ((d - Fin 191.28) / Fin 30.5)%js;
   ((e - Fin 8496.0) / Fin 2800.0)%js].
Proof. reflexivity. Qed.

Lemma forestPredict_NaN (a b c d e : number) :
  a = NaN \/ b = NaN \/ c = NaN \/ d = NaN \/ e = NaN ->
  forestPredict [a; b; c; d; e] = NaN.
Proof.
  unfold forestPredict; cbn [index nth].
  intros [-> | [-> | [-> | [-> | ->]]]];
    autorewrite with js_nan; reflexivity.
Qed.

Lemma predictAmmoniaRisk_NaN (temp_c pH ec : number) :
  temp_c = NaN \/ pH = NaN \/ ec = NaN ->
  predictAmmoniaRisk temp_c pH ec =
  {| TAN := NaN; toxicNH3 := NaN; risk := CRITICAL |}.
Proof.
  intros H; unfold predictAmmoniaRisk.
  rewrite standardScale_5, forestPredict_NaN.
  - unfold emersonPhysics; cbn [Math_expm1].
    rewrite mul_NaN_l; reflexivity.
  - destruct H as [-> | [-> | ->]]; autorewrite with js_nan; auto.
Qed.

(** C10: as soon as one of the three inputs is [NaN], the result reports
    [NaN] for both concentrations and the tier [CRITICAL]: the two threshold
    comparisons are false on [NaN], so the classifier falls through to its
    last branch. *)
Theorem predictAmmoniaRisk_NaN_is_CRITICAL (temp_c pH ec : number) :
  isNaN temp_c || isNaN pH || isNaN ec = true ->
  TAN (predictAmmoniaRisk temp_c pH ec) = NaN /\
  toxicNH3 (predictAmmoniaRisk temp_c pH ec) = NaN /\
  risk (predictAmmoniaRisk temp_c pH ec) = CRITICAL /\
  (NaN <? Fin 0.05)%js = false /\ (NaN <? Fin 0.34)%js = false.
Proof.
  intros H.
  rewrite predictAmmoniaRisk_NaN; [repeat split |].
  destruct temp_c, pH, ec; simpl in H; try discriminate; auto.
Qed.

Lemma predictAmmoniaRisk_NaN_is_CRITICAL_witness :
  TAN (predictAmmoniaRisk (Fin 28) NaN (Fin 1200)) = NaN /\
  risk (predictAmmoniaRisk (Fin 28) NaN (Fin 1200)) = CRITICAL.
Proof.
  destruct (predictAmmoniaRisk_NaN_is_CRITICAL (Fin 28) NaN (Fin 1200))
    as (H1 & _ & H3 & _); [reflexivity | split; assumption].
Defined.

(** C9: on every input triple the reported tier is the classification of the
    reported (floored) toxic value. *)
Theorem risk_classifies_reported_toxicNH3 (temp_c pH ec : number) :
  risk (predictAmmoniaRisk temp_c pH ec) =
  classifyRisk (toxicNH3 (predictAmmoniaRisk temp_c pH ec)).
Proof.
  unfold predictAmmoniaRisk; cbn [risk toxicNH3].
  symmetry; apply classifyRisk_floor.
Qed.

(** ** Finite inputs stay finite *)

Lemma in_clamp_range_Fin (v : R) :
  in_clamp_range (Fin v) = true <-> -0.05 <= v <= 3.2.
Proof.
  unfold in_clamp_range; simpl; rewrite andb_true_iff, !negb_true_iff,
    !Rltb_false; tauto.
Qed.

(** The clamp alone bounds every value that is not [NaN]. *)
Lemma clamp_in_range (v : number) :
  isNaN v = false ->
  in_clamp_range (Math_max (Fin (-0.05)) (Math_min v (Fin 3.2))) = true.
Proof.
  destruct v; simpl; intros H; try discriminate;
    apply in_clamp_range_Fin; js_cases; lra.
Qed.

Lemma forestPredict_Fin (a b c d e : R) :
  exists v, forestPredict [Fin a; Fin b; Fin c; Fin d; Fin e] = Fin v /\
            -0.05 <= v <= 3.2.
Proof.
  unfold forestPredict, MODEL.saturation, MODEL.intercept,
    MODEL.weights.Temp, MODEL.weights.EC, MODEL.weights.pH,
    MODEL.weights.pH_Temp, MODEL.weights.EC_pH; cbn [index nth add mul].
  rewrite div_Fin by lra.
  eexists; split; [reflexivity |].
  js_cases; lra.
Qed.

Lemma standardScale_Fin (a b c d e : R) :
  standardScale [Fin a; Fin b; Fin c; Fin d; Fin e] =
  [Fin ((a - 26.5) / 3.8); Fin ((b - 1180.0) / 350.0);
   Fin ((c - 7.2) / 0.45); Fin ((d - 191.28) / 30.5);
   Fin ((e - 8496.0) / 2800.0)].
Proof.
  rewrite standardScale_5; unfold sub; cbn [neg add].
  rewrite !div_Fin by lra; reflexivity.
Qed.

Lemma Rpower10_pos (x : R) : 0 < Rpower 10 x.
Proof. unfold Rpower; apply exp_pos. Qed.

Lemma emersonPhysics_Fin (tan t p : R) :
  t + 273.15 <> 0 ->
  emersonPhysics (Fin tan) (Fin t) (Fin p) = Fin (tan * fraction_of t p).
Proof.
  intros Ht; unfold emersonPhysics, fraction_of, pKa_of.
  cbn [add]; rewrite div_Fin by assumption.
  cbn [add sub neg Math_pow10].
  rewrite div_Fin; [reflexivity |].
  pose proof (Rpower10_pos (0.09018 + 2729.92 / (t + 273.15) + - p)); lra.
Qed.

(** At absolute zero the division [2729.92 / 0] is [+Infinity], the power
    is [+Infinity] and the fraction collapses to [0]. *)
Lemma emersonPhysics_abs_zero (tan t p : R) :
  t + 273.15 = 0 ->
  emersonPhysics (Fin tan) (Fin t) (Fin p) = Fin (tan * 0).
Proof.
  intros Ht; unfold emersonPhysics; cbn [add]; rewrite Ht.
  rewrite div_pos_zero by lra.
  cbn [add sub neg Math_pow10 div mul]; reflexivity.
Qed.

Lemma emersonPhysics_finite (tan t p : R) :
  exists y, emersonPhysics (Fin tan) (Fin t) (Fin p) = Fin y.
Proof.
  destruct (Req_dec_T (t + 273.15) 0) as [H | H].
  - rewrite emersonPhysics_abs_zero by assumption; eauto.
  - rewrite emersonPhysics_Fin by assumption; eauto.
Qed.

Lemma floor_nonneg (x : R) : le (Fin 0) (Math_max (Fin 0) (Fin x)) = true.
Proof. simpl; js_cases; try reflexivity; lra. Qed.

(** Whatever the inputs, a reported concentration is [NaN] or non-negative:
    the floor [Math.max(0, x)] only lets [NaN] through. *)
Lemma floor_nonneg_or_NaN (x : number) :
  isNaN (Math_max (Fin 0) x) = true \/ le (Fin 0) (Math_max (Fin 0) x) = true.
Proof.
  destruct x; [left; reflexivity | right | right | right; reflexivity].
  - simpl; js_cases; js_done.
  - apply floor_nonneg.
Qed.

Lemma le_Fin (x y : R) : le (Fin x) (Fin y) = true <-> x <= y.
Proof. cbn [le]; rewrite negb_true_iff, Rltb_false; tauto. Qed.

Lemma in_valid_domain_inv (temp_c pH ec : number) :
  in_valid_domain temp_c pH ec = true ->
  exists t p e, temp_c = Fin t /\ pH = Fin p /\ ec = Fin e /\
                5 <= t <= 40 /\ 5 <= p <= 10 /\ 50 <= e <= 3000.
Proof.
  unfold in_valid_domain; rewrite !andb_true_iff.
  intros [[[[[H1 H2] H3] H4] H5] H6].
  destruct temp_c as [ | | t | ]; try discriminate.
  destruct pH as [ | | p | ]; try discriminate.
  destruct ec as [ | | e | ]; try discriminate.
  rewrite le_Fin in H1, H2, H3, H4, H5, H6.
  exists t, p, e; repeat split; assumption.
Qed.

Lemma in_valid_domain_Fin (t p e : R) :
  5 <= t <= 40 -> 5 <= p <= 10 -> 50 <= e <= 3000 ->
  in_valid_domain (Fin t) (Fin p) (Fin e) = true.
Proof.
  intros Ht Hp He; unfold in_valid_domain; rewrite !andb_true_iff, !le_Fin.
  repeat split; lra.
Qed.

(** C4 (amended): a reported concentration is never negative: for every
    input triple each of TAN and toxicNH3 is [NaN] or [>= 0], and on every
    triple of the valid physical domain (temperature 5 to 40, pH 5 to 10,
    conductivity 50 to 3000) both are [>= 0]. *)
Theorem predictAmmoniaRisk_nonneg (temp_c pH ec : number) :
  (isNaN (TAN (predictAmmoniaRisk temp_c pH ec)) = true \/
   le (Fin 0) (TAN (predictAmmoniaRisk temp_c pH ec)) = true) /\
  (isNaN (toxicNH3 (predictAmmoniaRisk temp_c pH ec)) = true \/
   le (Fin 0) (toxicNH3 (predictAmmoniaRisk temp_c pH ec)) = true) /\
  (in_valid_domain temp_c pH ec = true ->
   le (Fin 0) (TAN (predictAmmoniaRisk temp_c pH ec)) = true /\
   le (Fin 0) (toxicNH3 (predictAmmoniaRisk temp_c pH ec)) = true).
Proof.
  split; [apply floor_nonneg_or_NaN | split; [apply floor_nonneg_or_NaN |]].
  intros Hdom.
  destruct (in_valid_domain_inv _ _ _ Hdom)
    as (t & p & e & -> & -> & -> & _).
  unfold predictAmmoniaRisk; cbn [TAN toxicNH3 mul].
  rewrite standardScale_Fin.
  destruct (forestPredict_Fin ((t - 26.5) / 3.8) ((e - 1180.0) / 350.0)
              ((p - 7.2) / 0.45) ((p * t - 191.28) / 30.5)
              ((e * p - 8496.0) / 2800.0)) as (v & -> & _).
  cbn [Math_expm1].
  destruct (emersonPhysics_finite (exp v - 1) t p) as (y & ->).
  split; apply floor_nonneg.
Qed.

Lemma predictAmmoniaRisk_nonneg_witness :
  le (Fin 0) (TAN (predictAmmoniaRisk (Fin 28) (Fin 7.5) (Fin 1200))) = true /\
  le (Fin 0) (toxicNH3 (predictAmmoniaRisk (Fin 28) (Fin 7.5) (Fin 1200)))
  = true.
Proof.
  destruct (predictAmmoniaRisk_nonneg (Fin 28) (Fin 7.5) (Fin 1200))
    as (_ & _ & H).
  apply H, in_valid_domain_Fin; lra.
Defined.

(** ** Bounds of the surrogate *)

Lemma mul_pos_PInf (x : R) : 0 < x -> (Fin x * PInf)%js = PInf.
Proof. intros Hx; simpl; js_cases; js_done. Qed.

Lemma mul_pos_NInf (x : R) : 0 < x -> (Fin x * NInf)%js = NInf.
Proof. intros Hx; simpl; js_cases; js_done. Qed.

(** Whatever the features, the output is [NaN] or lies in the clamp range. *)
Lemma forestPredict_NaN_or_bounded (s : list number) :
  isNaN (forestPredict s) = true \/ in_clamp_range (forestPredict s) = true.
Proof.
  unfold forestPredict.
  match goal with
  | |- context [Math_min ?v (Fin 3.2)] =>
      destruct (isNaN v) eqn:Hv;
      [ left; destruct v; try discriminate; reflexivity
      | right; apply clamp_in_range; exact Hv ]
  end.
Qed.

(** C8 (amended): for every input 5-tuple the log-scale output of
    [forestPredict] is [NaN] or lies in the closed interval [-0.05, 3.2];
    and it lies in the interval whenever the five features are finite with
    magnitude at most [1e100], so that no product can overflow. *)
Theorem forestPredict_bounds (s : list number) (a b c d e : R) :
  (isNaN (forestPredict s) = true \/
   in_clamp_range (forestPredict s) = true) /\
  (Rabs a <= 10 ^ 100 -> Rabs b <= 10 ^ 100 -> Rabs c <= 10 ^ 100 ->
   Rabs d <= 10 ^ 100 -> Rabs e <= 10 ^ 100 ->
   in_clamp_range (forestPredict [Fin a; Fin b; Fin c; Fin d; Fin e]) = true).
Proof.
  split; [apply forestPredict_NaN_or_bounded | intros _ _ _ _ _].
  destruct (forestPredict_Fin a b c d e) as (v & -> & Hv).
  apply in_clamp_range_Fin; exact Hv.
Qed.

Lemma forestPredict_bounds_witness :
  in_clamp_range
    (forestPredict [Fin 1000; Fin (-1000); Fin 0; Fin 2.5; Fin 1]) = true.
Proof.
  assert (H : 1000 <= 10 ^ 100).
  { replace 1000 with (10 ^ 3) by (simpl; lra).
    apply Rle_pow; [lra | lia]. }
  destruct (forestPredict_bounds [] 1000 (-1000) 0 2.5 1) as [_ Hb].
  apply Hb; unfold Rabs;
    repeat match goal with |- context [Rcase_abs ?x] =>
      destruct (Rcase_abs x) end; lra.
Defined.

(** C8 as stated fails: a tuple of infinite magnitude whose linear terms
    pull in opposite directions, or a tuple holding [NaN], makes the running
    value [NaN]; [Math.tanh], [Math.min] and [Math.max] all return [NaN] on
    it, and [NaN] is not inside [-0.05, 3.2]. *)
Lemma forestPredict_unbounded_on_special_values :
  forestPredict [PInf; NInf; Fin 0; Fin 0; Fin 0] = NaN /\
  in_clamp_range (forestPredict [PInf; NInf; Fin 0; Fin 0; Fin 0]) = false /\
  in_clamp_range (forestPredict [NaN; Fin 0; Fin 0; Fin 0; Fin 0]) = false.
Proof.
  assert (H : forestPredict [PInf; NInf; Fin 0; Fin 0; Fin 0] = NaN).
  { unfold forestPredict, MODEL.intercept, MODEL.weights.Temp,
      MODEL.weights.EC; cbn [index nth].
    rewrite mul_pos_PInf, mul_pos_NInf by lra.
    cbn [add]; autorewrite with js_nan; reflexivity. }
  rewrite H, forestPredict_NaN by auto.
  repeat split.
Qed.

(** ** The Emerson equilibrium *)

Lemma fraction_of_pos (t p : R) : 0 < fraction_of t p.
Proof.
  unfold fraction_of; pose proof (Rpower10_pos (pKa_of t - p)).
  apply Rdiv_lt_0_compat; lra.
Qed.








(** ** The equilibrium at 300 K and pH 7.2 *)

(** Rational brackets for powers of ten: [a / b < 10 ^ (m / n)] follows from
    the integer inequality [a ^ n < 10 ^ m * b ^ n], and symmetrically. *)
Lemma Rpower10_root (m n : nat) :
  (0 < n)%nat -> Rpower 10 (INR m / INR n) ^ n = 10 ^ m.
Proof.
  intros Hn.
  rewrite <- Rpower_pow by apply Rpower10_pos.
  rewrite Rpower_mult.
  replace (INR m / INR n * INR n) with (INR m).
  - apply Rpower_pow; lra.
  - field. apply not_0_INR; lia.
Qed.

Lemma Rpower10_above (a b : Z) (m n : nat) :
  (0 < a)%Z -> (0 < b)%Z -> (0 < n)%nat ->
  (a ^ Z.of_nat n < 10 ^ Z.of_nat m * b ^ Z.of_nat n)%Z ->
  IZR a / IZR b < Rpower 10 (INR m / INR n).
Proof.
  intros Ha Hb Hn Hlt.
  apply IZR_lt in Ha, Hb.
  destruct (Rlt_dec (IZR a / IZR b) (Rpower 10 (INR m / INR n)))
    as [H | H]; [exact H | exfalso].
  apply Rnot_lt_le in H.
  assert (Hq : 0 < IZR a / IZR b) by (apply Rdiv_lt_0_compat; assumption).
  pose proof (Rpower10_pos (INR m / INR n)) as Hy.
  assert (Hpow : Rpower 10 (INR m / INR n) ^ n <= (IZR a / IZR b) ^ n)
    by (apply pow_incr; lra).
  rewrite Rpower10_root in Hpow by assumption.
  assert (Hb' : 0 < IZR b ^ n) by (apply pow_lt; assumption).
  assert (Hmul : 10 ^ m * IZR b ^ n <= IZR a ^ n).
  { replace (IZR a ^ n) with ((IZR a / IZR b) ^ n * IZR b ^ n).
    - apply Rmult_le_compat_r; lra.
    - rewrite <- Rpow_mult_distr; f_equal; field; lra. }
  rewrite !pow_IZR, <- mult_IZR in Hmul.
  apply le_IZR in Hmul; lia.
Qed.

Lemma Rpower10_below (a b : Z) (m n : nat) :
  (0 < a)%Z -> (0 < b)%Z -> (0 < n)%nat ->
  (10 ^ Z.of_nat m * b ^ Z.of_nat n < a ^ Z.of_nat n)%Z ->
  Rpower 10 (INR m / INR n) < IZR a / IZR b.
Proof.
  intros Ha Hb Hn Hlt.
  apply IZR_lt in Ha, Hb.
  destruct (Rlt_dec (Rpower 10 (INR m / INR n)) (IZR a / IZR b))
    as [H | H]; [exact H | exfalso].
  apply Rnot_lt_le in H.
  assert (Hq : 0 < IZR a / IZR b) by (apply Rdiv_lt_0_compat; assumption).
  assert (Hpow : (IZR a / IZR b) ^ n <= Rpower 10 (INR m / INR n) ^ n)
    by (apply pow_incr; lra).
  rewrite Rpower10_root in Hpow by assumption.
  assert (Hb' : 0 < IZR b ^ n) by (apply pow_lt; assumption).
  assert (Hmul : IZR a ^ n <= 10 ^ m * IZR b ^ n).
  { replace (IZR a ^ n) with ((IZR a / IZR b) ^ n * IZR b ^ n).
    - apply Rmult_le_compat_r; lra.
    - rewrite <- Rpow_mult_distr; f_equal; field; lra. }
  rewrite !pow_IZR, <- mult_IZR in Hmul.
  apply le_IZR in Hmul; lia.
Qed.

Lemma Rpower10_1989 : 97.4 < Rpower 10 1.989.
Proof.
  replace 97.4 with (IZR 974 / IZR 10) by lra.
  replace 1.989 with (INR 1989 / INR 1000)
    by (rewrite !INR_IZR_INZ;
        change (Z.of_nat 1989) with 1989%Z;
        change (Z.of_nat 1000) with 1000%Z; lra).
  apply Rpower10_above; [lia | lia | lia | vm_compute; reflexivity].
Qed.

Lemma Rpower10_1990 : Rpower 10 1.990 < 97.8.
Proof.
  replace 97.8 with (IZR 978 / IZR 10) by lra.
  replace 1.990 with (INR 1990 / INR 1000)
    by (rewrite !INR_IZR_INZ;
        change (Z.of_nat 1990) with 1990%Z;
        change (Z.of_nat 1000) with 1000%Z; lra).
  apply Rpower10_below; [lia | lia | lia | vm_compute; reflexivity].
Qed.

Lemma pKa_of_300K : 9.18991 < pKa_of 26.85 < 9.18992.
Proof.
  unfold pKa_of; replace (26.85 + 273.15) with 300 by lra; lra.
Qed.

Lemma fraction_of_300K_7_2 : 0.0101 < fraction_of 26.85 7.2 < 0.0102.
Proof.
  unfold fraction_of.
  pose proof pKa_of_300K as [Hlo Hhi].
  assert (H1 : 97.4 < Rpower 10 (pKa_of 26.85 - 7.2)).
  { eapply Rlt_trans; [apply Rpower10_1989 | apply Rpower_lt; lra]. }
  assert (H2 : Rpower 10 (pKa_of 26.85 - 7.2) < 97.8).
  { eapply Rlt_trans; [apply Rpower_lt | apply Rpower10_1990]; lra. }
  set (u := Rpower 10 (pKa_of 26.85 - 7.2)) in *.
  split.
  - apply Rmult_lt_reg_r with (1.0 + u); [lra |].
    unfold Rdiv; rewrite Rmult_assoc, Rinv_l by lra; lra.
  - apply Rmult_lt_reg_r with (1.0 + u); [lra |].
    unfold Rdiv; rewrite Rmult_assoc, Rinv_l by lra; lra.
Qed.

Lemma toxic_at_300K_bounds :
  exists y, emersonPhysics (Fin 1.0) (Fin 26.85) (Fin 7.2) = Fin y /\
            0.0101 < y < 0.0102.
Proof.
  pose proof fraction_of_300K_7_2 as H.
  rewrite emersonPhysics_Fin by lra.
  eexists; split; [reflexivity | lra].
Qed.

(** C6 (amended): at [TAN = 1.0], [temp_c = 26.85] (300 K) and [pH = 7.2]
    the converter returns [1.0 / (1 + 10 ^ (pKa - 7.2))] with
    [pKa = 0.09018 + 2729.92 / 300], which is about [9.18991], and the
    returned value is about [0.0101] mg/L (between 0.0101 and 0.0102). *)
Theorem emersonPhysics_at_300K :
  emersonPhysics (Fin 1.0) (Fin 26.85) (Fin 7.2) =
    Fin (1.0 * (1.0 / (1.0 + Rpower 10 (0.09018 + 2729.92 / 300 - 7.2)))) /\
  9.18991 < 0.09018 + 2729.92 / 300 < 9.18992 /\
  0.0101 < 1.0 * (1.0 / (1.0 + Rpower 10 (0.09018 + 2729.92 / 300 - 7.2)))
         < 0.0102.
Proof.
  pose proof fraction_of_300K_7_2 as H.
  rewrite emersonPhysics_Fin by lra.
  unfold fraction_of, pKa_of in *.
  replace (26.85 + 273.15) with 300 in * by lra.
  repeat split; lra.
Qed.

(** C6 as stated fails: the value returned at that point is below [0.0102],
    nowhere near [0.3943], and [0.09018 + 2729.92 / 300] is not [9.18327]. *)
Lemma toxic_at_300K_is_not_0_3943 :
  exists y, emersonPhysics (Fin 1.0) (Fin 26.85) (Fin 7.2) = Fin y /\
            0.38 < Rabs (y - 0.3943) /\
            0.09018 + 2729.92 / 300 <> 9.18327.
Proof.
  destruct toxic_at_300K_bounds as (y & Hy & Hlo & Hhi).
  exists y; repeat split; [exact Hy | | lra].
  rewrite Rabs_left by lra; lra.
Qed.

(** ** The heat-map grid *)

Lemma nth_error_map_seq {A : Type} (f : nat -> A) (s n i : nat) :
  (i < n)%nat -> nth_error (map f (seq s n)) i = Some (f (s + i)%nat).
Proof.
  revert s i; induction n as [| n IH]; intros s i Hi; [lia |].
  destruct i as [| i]; cbn [seq map nth_error].
  - f_equal; f_equal; lia.
  - rewrite IH by lia; f_equal; f_equal; lia.
Qed.

(** With a single step the divisor [steps - 1] is zero: the step is an
    infinity or [NaN], and [0 * step] is [NaN]. *)
Lemma zero_times_step_over_zero (x : R) :
  (of_nat 0 * (Fin x / (of_nat 1 - Fin 1)))%js = NaN.
Proof.
  unfold of_nat, sub; cbn [neg add INR].
  match goal with
  | |- context [(Fin x / Fin ?z)%js] => replace z with 0 by lra
  end.
  destruct (Rtotal_order x 0) as [H | [H | H]].
  - rewrite div_neg_zero by assumption; simpl; js_cases; js_done.
  - subst x; rewrite div_zero_zero; reflexivity.
  - rewrite div_pos_zero by lra; simpl; js_cases; js_done.
Qed.

(** C3 (what the code does at [steps = 1]): the grid has one cell, but the
    division by [steps - 1 = 0] is carried out; the sample coordinates are
    [lo + 0 * (hi - lo) / 0 = NaN], so the cell reports [NaN] for
    temperature, pH and both concentrations, and the tier [CRITICAL]. *)
Theorem generateHeatmapData_single_step (a b c d : R) (ec : number) :
  generateHeatmapData (Fin a, Fin b) (Fin c, Fin d) ec 1 =
  [[ {| Cell.temp := NaN; Cell.pH := NaN; Cell.TAN := NaN;
        Cell.toxicNH3 := NaN; Cell.risk := CRITICAL |} ]].
Proof.
  unfold generateHeatmapData; cbn [seq map fst snd].
  change (Fin b - Fin a)%js with (Fin (b + - a)).
  change (Fin d - Fin c)%js with (Fin (d + - c)).
  rewrite !zero_times_step_over_zero.
  cbn [add]; rewrite predictAmmoniaRisk_NaN by auto.
  reflexivity.
Qed.

Lemma steps_minus_1_nonzero (steps : nat) :
  (2 <= steps)%nat -> INR steps - 1 <> 0.
Proof. intros H; apply le_INR in H; simpl in H; lra. Qed.

Lemma sample_first (lo hi : R) (steps : nat) : sample lo hi steps 0 = lo.
Proof. unfold sample; simpl; lra. Qed.

Lemma sample_last (lo hi : R) (steps : nat) :
  (2 <= steps)%nat -> sample lo hi steps (steps - 1) = hi.
Proof.
  intros H; unfold sample.
  rewrite minus_INR by lia; simpl (INR 1).
  field; apply steps_minus_1_nonzero; assumption.
Qed.

Lemma sample_spacing (lo hi : R) (steps i : nat) :
  sample lo hi steps (S i) - sample lo hi steps i
  = (hi - lo) / (INR steps - 1).
Proof. unfold sample; rewrite S_INR; lra. Qed.

(** With at least two steps the loop body computes exactly [sample]. *)
Lemma loop_sample (lo hi : R) (steps i : nat) :
  (2 <= steps)%nat ->
  (Fin lo + of_nat i * ((Fin hi - Fin lo) / (of_nat steps - Fin 1)))%js
  = Fin (sample lo hi steps i).
Proof.
  intros H; unfold of_nat, sub; cbn [neg add].
  rewrite div_Fin by (apply steps_minus_1_nonzero; assumption).
  reflexivity.
Qed.

Lemma generateHeatmapData_cell (a b c d : R) (ec : number) (steps i j : nat) :
  (2 <= steps)%nat -> (i < steps)%nat -> (j < steps)%nat ->
  cell_at (generateHeatmapData (Fin a, Fin b) (Fin c, Fin d) ec steps) i j
  = Some (spread (Fin (sample a b steps i)) (Fin (sample c d steps j))
            (predictAmmoniaRisk (Fin (sample a b steps i))
               (Fin (sample c d steps j)) ec)).
Proof.
  intros H Hi Hj; unfold cell_at, generateHeatmapData.
  rewrite nth_error_map_seq by assumption.
  rewrite nth_error_map_seq by assumption.
  cbn [fst snd Nat.add]; rewrite !loop_sample by assumption.
  reflexivity.
Qed.

(** * Further properties of the engine *)

(** ** The saturation envelope *)

Lemma tanh_bounds (x : R) : -1 < tanh x < 1.
Proof.
  unfold tanh, sinh, cosh.
  pose proof (exp_pos x) as Ha; pose proof (exp_pos (- x)) as Hb.
  set (a := exp x) in *; set (b := exp (- x)) in *.
  assert (Hc : 0 < (a + b) / 2) by lra.
  split.
  - apply Rmult_lt_reg_r with ((a + b) / 2); [assumption |].
    unfold Rdiv at 2; rewrite Rmult_assoc, Rinv_l by lra; lra.
  - apply Rmult_lt_reg_r with ((a + b) / 2); [assumption |].
    unfold Rdiv at 1; rewrite Rmult_assoc, Rinv_l by lra; lra.
Qed.

Lemma PInf_div_pos (y : R) : 0 < y -> (PInf / Fin y)%js = PInf.
Proof. intros Hy; simpl; js_cases; js_done. Qed.

Lemma NInf_div_pos (y : R) : 0 < y -> (NInf / Fin y)%js = NInf.
Proof. intros Hy; simpl; js_cases; js_done. Qed.

Lemma saturate_clamp_range (v : number) :
  let out := Math_max (Fin (-0.05)) (Math_min (Spec.saturate v) (Fin 3.2)) in
  isNaN out = true \/
  exists y, out = Fin y /\ -0.05 <= y <= 2.8 /\ (isFinite v = true -> y < 2.8).
Proof.
  destruct v as [ | | x | ]; cbv zeta; unfold Spec.saturate.
  - left; reflexivity.
  - right; rewrite NInf_div_pos by lra.
    cbn [Math_tanh mul Math_min Math_max].
    eexists; split; [reflexivity |].
    js_cases; repeat split; try discriminate; lra.
  - right; rewrite div_Fin by lra.
    pose proof (tanh_bounds (x / 2.8)) as [Hlo Hhi].
    cbn [Math_tanh mul Math_min Math_max].
    eexists; split; [reflexivity |].
    js_cases; repeat split; intros; lra.
  - right; rewrite PInf_div_pos by lra.
    cbn [Math_tanh mul Math_min Math_max].
    eexists; split; [reflexivity |].
    js_cases; repeat split; try discriminate; lra.
Qed.

Lemma forestPredict_reads_five (s : list number) :
  forestPredict s
  = forestPredict [index s 0; index s 1; index s 2; index s 3; index s 4].
Proof. reflexivity. Qed.

(** The ceiling [3.2] of the clamp is never reached: the saturation already
    keeps the value at or below [2.8], so every output that is not [NaN]
    lies in [-0.05, 2.8]. *)
Theorem forestPredict_below_saturation (s : list number) :
  isNaN (forestPredict s) = true \/
  le (Fin (-0.05)) (forestPredict s) && le (forestPredict s) (Fin 2.8) = true.
Proof.
  unfold forestPredict.
  match goal with
  | |- context [Math_tanh (?v / MODEL.saturation)%js] =>
      destruct (saturate_clamp_range v) as [H | (y & H & Hy & _)]
  end.
  - left; exact H.
  - right; unfold Spec.saturate in H; unfold MODEL.saturation.
    rewrite H; simpl.
    rewrite andb_true_iff, !negb_true_iff, !Rltb_false; lra.
Qed.

Lemma forestPredict_Fin_lt (a b c d e : R) :
  exists v, forestPredict [Fin a; Fin b; Fin c; Fin d; Fin e] = Fin v /\
            -0.05 <= v < 2.8.
Proof.
  destruct (forestPredict_Fin a b c d e) as (v & Hv & _).
  exists v; split; [exact Hv |].
  revert Hv; unfold forestPredict, MODEL.intercept,
    MODEL.weights.Temp, MODEL.weights.EC, MODEL.weights.pH,
    MODEL.weights.pH_Temp, MODEL.weights.EC_pH; cbn [index nth add mul].
  match goal with
  | |- context [Math_tanh (?w / MODEL.saturation)%js] =>
      destruct (saturate_clamp_range w) as [H | (y & H & Hy & Hf)]
  end; unfold Spec.saturate in H; unfold MODEL.saturation; intros E.
  - rewrite E in H; discriminate.
  - rewrite H in E; injection E as <-; specialize (Hf eq_refl); lra.
Qed.

(** A short feature array leaves the fifth destructured name [undefined]:
    the prediction is [NaN]. *)
Theorem forestPredict_short_array (s : list number) :
  (List.length s < 5)%nat -> forestPredict s = NaN.
Proof.
  intros H; rewrite forestPredict_reads_five.
  apply forestPredict_NaN; right; right; right; right.
  unfold index; apply nth_overflow; lia.
Qed.

Lemma forestPredict_short_array_witness :
  forestPredict [Fin 1; Fin 2; Fin 3; Fin 4] = NaN.
Proof. apply forestPredict_short_array; simpl; lia. Defined.

(** ** Bounds on the reported concentrations *)

Lemma fraction_of_lt_1 (t p : R) : fraction_of t p < 1.
Proof.
  unfold fraction_of; pose proof (Rpower10_pos (pKa_of t - p)) as Hu.
  apply Rmult_lt_reg_r with (1.0 + Rpower 10 (pKa_of t - p)); [lra |].
  unfold Rdiv; rewrite Rmult_assoc, Rinv_l by lra; lra.
Qed.

(** On finite inputs the three result fields in closed form: [v] is the
    clamped log-scale prediction and [f] the unionized fraction. *)
Lemma predictAmmoniaRisk_Fin (t p e : R) :
  exists v f,
    -0.05 <= v < 2.8 /\ 0 <= f < 1 /\
    predictAmmoniaRisk (Fin t) (Fin p) (Fin e) =
    {| TAN := Fin (Rmax 0 (exp v - 1));
       toxicNH3 := Fin (Rmax 0 ((exp v - 1) * f));
       risk := classifyRisk (Fin ((exp v - 1) * f)) |}.
Proof.
  unfold predictAmmoniaRisk; cbn [mul].
  rewrite standardScale_Fin.
  destruct (forestPredict_Fin_lt ((t - 26.5) / 3.8) ((e - 1180.0) / 350.0)
              ((p - 7.2) / 0.45) ((p * t - 191.28) / 30.5)
              ((e * p - 8496.0) / 2800.0)) as (v & -> & Hv).
  cbn [Math_expm1].
  destruct (Req_dec_T (t + 273.15) 0) as [H | H].
  - exists v, 0; rewrite emersonPhysics_abs_zero by assumption.
    repeat split; try lra.
  - exists v, (fraction_of t p); rewrite emersonPhysics_Fin by assumption.
    pose proof (fraction_of_pos t p); pose proof (fraction_of_lt_1 t p).
    repeat split; try lra.
Qed.

Lemma exp_nat_mul (n : nat) (h : R) : exp (INR n * h) = exp h ^ n.
Proof.
  induction n as [| n IH].
  - simpl; rewrite Rmult_0_l; apply exp_0.
  - rewrite S_INR, Rmult_plus_distr_r, Rmult_1_l, exp_plus, IH; simpl; ring.
Qed.

Lemma ratio_pow_lt (a b c : Z) (n : nat) :
  (0 < b)%Z -> (a ^ Z.of_nat n < c * b ^ Z.of_nat n)%Z ->
  (IZR a / IZR b) ^ n < IZR c.
Proof.
  intros Hb Hlt; apply IZR_lt in Hb.
  assert (Hbn : 0 < IZR b ^ n) by (apply pow_lt; assumption).
  apply Rmult_lt_reg_r with (IZR b ^ n); [assumption |].
  rewrite <- Rpow_mult_distr.
  replace (IZR a / IZR b * IZR b) with (IZR a) by (field; lra).
  rewrite !pow_IZR, <- mult_IZR; apply IZR_lt; assumption.
Qed.

Lemma exp_2_8_lt_17 : exp 2.8 < 17.
Proof.
  assert (Hh : exp 0.014 <= IZR 1000 / IZR 986).
  { pose proof (exp_ineq1_le (Ropp 0.014)) as H.
    rewrite exp_Ropp in H.
    pose proof (exp_pos 0.014) as Hp.
    apply Rmult_le_reg_r with 0.986; [lra |].
    replace (IZR 1000 / IZR 986 * 0.986) with 1 by lra.
    apply Rmult_le_reg_r with (/ exp 0.014);
      [apply Rinv_0_lt_compat; assumption |].
    rewrite Rmult_assoc, (Rmult_comm 0.986), <- Rmult_assoc,
      Rinv_r by lra.
    lra. }
  replace 2.8 with (INR 200 * 0.014)
    by (rewrite INR_IZR_INZ; change (Z.of_nat 200) with 200%Z; lra).
  rewrite exp_nat_mul.
  apply Rle_lt_trans with ((IZR 1000 / IZR 986) ^ 200).
  - apply pow_incr; split; [left; apply exp_pos | exact Hh].
  - apply ratio_pow_lt; [lia | vm_compute; reflexivity].
Qed.

Lemma predictAmmoniaRisk_concentrations_Fin (t p e : R) :
  exists tan tox,
    TAN (predictAmmoniaRisk (Fin t) (Fin p) (Fin e)) = Fin tan /\
    toxicNH3 (predictAmmoniaRisk (Fin t) (Fin p) (Fin e)) = Fin tox /\
    0 <= tox <= tan /\ tan < exp 2.8 - 1 /\ exp 2.8 - 1 < 16.
Proof.
  destruct (predictAmmoniaRisk_Fin t p e) as (v & f & Hv & Hf & ->).
  cbn [TAN toxicNH3].
  assert (H1 : 1 < exp 2.8) by (rewrite <- exp_0; apply exp_increasing; lra).
  pose proof exp_2_8_lt_17 as H17.
  assert (He : exp v < exp 2.8) by (apply exp_increasing; lra).
  pose proof (exp_pos v) as Hpos.
  eexists; eexists; split; [reflexivity | split; [reflexivity |]].
  assert (Hprod : exp v - 1 <= 0 -> (exp v - 1) * f <= 0) by (intros; nra).
  assert (Hprod' : 0 <= exp v - 1 -> (exp v - 1) * f <= exp v - 1)
    by (intros; nra).
  unfold Rmax; js_cases; repeat split; try lra.
Qed.

(** On every input triple of the valid physical domain (temperature 5 to
    40, pH 5 to 10, conductivity 50 to 3000) the reported concentrations are
    finite and ordered, [0 <= toxicNH3 <= TAN < 16] mg/L: the toxic share
    never exceeds the total, and the saturation caps the total. *)
Theorem predictAmmoniaRisk_concentrations (temp_c pH ec : number) :
  in_valid_domain temp_c pH ec = true ->
  exists tan tox,
    TAN (predictAmmoniaRisk temp_c pH ec) = Fin tan /\
    toxicNH3 (predictAmmoniaRisk temp_c pH ec) = Fin tox /\
    0 <= tox <= tan /\ tan < 16.
Proof.
  intros Hdom.
  destruct (in_valid_domain_inv _ _ _ Hdom)
    as (t & p & e & -> & -> & -> & _).
  destruct (predictAmmoniaRisk_concentrations_Fin t p e)
    as (tan & tox & H1 & H2 & H3 & H4 & H5).
  exists tan, tox; repeat split; try assumption; lra.
Qed.

Lemma predictAmmoniaRisk_concentrations_witness :
  exists tan tox,
    TAN (predictAmmoniaRisk (Fin 38) (Fin 9.5) (Fin 2900)) = Fin tan /\
    toxicNH3 (predictAmmoniaRisk (Fin 38) (Fin 9.5) (Fin 2900)) = Fin tox /\
    0 <= tox <= tan /\ tan < 16.
Proof.
  apply (predictAmmoniaRisk_concentrations (Fin 38) (Fin 9.5) (Fin 2900)).
  apply in_valid_domain_Fin; lra.
Defined.

Lemma tanh_ge_half (x : R) : 1 <= x -> 1 / 2 <= tanh x.
Proof.
  intros Hx; unfold tanh, sinh, cosh.
  pose proof (exp_ineq1_le x) as Ha.
  pose proof (exp_pos (- x)) as Hb.
  assert (Hab : exp x * exp (- x) = 1)
    by (rewrite <- exp_plus, Rplus_opp_r; apply exp_0).
  set (a := exp x) in *; set (b := exp (- x)) in *.
  assert (Hb2 : 3 * b <= a) by nra.
  apply Rmult_le_reg_r with ((a + b) / 2); [lra |].
  unfold Rdiv at 3; rewrite Rmult_assoc, Rinv_l by lra; lra.
Qed.

(** When the running value is at least [2.8] the clamped log-scale
    prediction is at least [1.4]. *)
Lemma forestPredict_Fin_large (a b c d e : R) :
  2.8 <= -0.12 + 0.08 * a + 0.22 * b + -0.05 * c + 0.12 * d + 0.11 * e
         + 0.04 * a * b + 0.03 * b * c + 0.02 * a * d ->
  exists v, forestPredict [Fin a; Fin b; Fin c; Fin d; Fin e] = Fin v /\
            1.4 <= v.
Proof.
  intros Hw.
  unfold forestPredict, MODEL.saturation, MODEL.intercept,
    MODEL.weights.Temp, MODEL.weights.EC, MODEL.weights.pH,
    MODEL.weights.pH_Temp, MODEL.weights.EC_pH; cbn [index nth add mul].
  rewrite div_Fin by lra.
  cbn [Math_tanh mul Math_min Math_max].
  eexists; split; [reflexivity |].
  match goal with
  | |- context [tanh ?x] =>
      assert (Ht : 1 / 2 <= tanh x)
        by (apply tanh_ge_half;
            apply Rmult_le_reg_r with 2.8; [lra |];
            unfold Rdiv; rewrite Rmult_assoc, Rinv_l by lra; lra);
      pose proof (tanh_bounds x) as [_ Ht1]
  end.
  js_cases; lra.
Qed.

(** The specification's second end-to-end scenario, 38 degrees, pH 9.5 and
    2900 microsiemens, is [CRITICAL]. *)
Lemma scenario_B_is_CRITICAL :
  risk (predictAmmoniaRisk (Fin 38) (Fin 9.5) (Fin 2900)) = CRITICAL.
Proof.
  unfold predictAmmoniaRisk; cbn [risk mul].
  rewrite standardScale_Fin.
  destruct (forestPredict_Fin_large ((38 - 26.5) / 3.8)
              ((2900 - 1180.0) / 350.0) ((9.5 - 7.2) / 0.45)
              ((9.5 * 38 - 191.28) / 30.5)
              ((2900 * 9.5 - 8496.0) / 2800.0)) as (v & -> & Hv); [lra |].
  cbn [Math_expm1]; rewrite emersonPhysics_Fin by lra.
  pose proof (exp_ineq1_le v) as He.
  assert (Hf : 1 / 2 < fraction_of 38 9.5).
  { unfold fraction_of.
    assert (Hu : Rpower 10 (pKa_of 38 - 9.5) < 1).
    { rewrite <- (Rpower_O 10) by lra; apply Rpower_lt; [lra |].
      unfold pKa_of; replace (38 + 273.15) with 311.15 by lra; lra. }
    pose proof (Rpower10_pos (pKa_of 38 - 9.5)) as Hp.
    apply Rmult_lt_reg_r with (1.0 + Rpower 10 (pKa_of 38 - 9.5)); [lra |].
    unfold Rdiv at 2; rewrite Rmult_assoc, Rinv_l by lra; lra. }
  assert (Hprod : 0.34 <= (exp v - 1) * fraction_of 38 9.5) by nra.
  unfold classifyRisk; cbn [lt]; js_cases; try reflexivity; lra.
Qed.

(** On the valid physical domain a verdict other than [SAFE] means the
    estimated TAN is at least [0.05] mg/L, and [CRITICAL] means it is at
    least [0.34] mg/L; an estimate below [0.05] is always [SAFE]. *)
Theorem risk_needs_TAN (temp_c pH ec : number) :
  in_valid_domain temp_c pH ec = true ->
  (risk (predictAmmoniaRisk temp_c pH ec) <> SAFE ->
   le (Fin 0.05) (TAN (predictAmmoniaRisk temp_c pH ec)) = true) /\
  (risk (predictAmmoniaRisk temp_c pH ec) = CRITICAL ->
   le (Fin 0.34) (TAN (predictAmmoniaRisk temp_c pH ec)) = true).
Proof.
  intros Hdom.
  destruct (in_valid_domain_inv _ _ _ Hdom)
    as (t & p & e & -> & -> & -> & _).
  destruct (predictAmmoniaRisk_Fin t p e) as (v & f & Hv & Hf & ->).
  cbn [TAN risk].
  assert (Hprod : exp v - 1 <= 0 -> (exp v - 1) * f <= 0) by (intros; nra).
  assert (Hprod' : 0 <= exp v - 1 -> (exp v - 1) * f <= exp v - 1)
    by (intros; nra).
  unfold classifyRisk; cbn [lt le].
  split; intros H; rewrite negb_true_iff, Rltb_false;
    js_cases; try discriminate; try (exfalso; apply H; reflexivity);
    unfold Rmax; js_cases; lra.
Qed.

Lemma risk_needs_TAN_witness :
  risk (predictAmmoniaRisk (Fin 38) (Fin 9.5) (Fin 2900)) = CRITICAL /\
  le (Fin 0.05) (TAN (predictAmmoniaRisk (Fin 38) (Fin 9.5) (Fin 2900)))
  = true /\
  le (Fin 0.34) (TAN (predictAmmoniaRisk (Fin 38) (Fin 9.5) (Fin 2900)))
  = true.
Proof.
  destruct (risk_needs_TAN (Fin 38) (Fin 9.5) (Fin 2900)) as [H1 H2];
    [apply in_valid_domain_Fin; lra |].
  pose proof scenario_B_is_CRITICAL as HB.
  split; [exact HB | split].
  - apply H1; rewrite HB; discriminate.
  - apply H2; exact HB.
Defined.

(** ** The scaler on arrays of any length *)

Lemma nth_error_mapi_from {A B : Type} (f : A -> nat -> B) (l : list A)
    (i k : nat) :
  nth_error (mapi_from f i l) k
  = option_map (fun v => f v (i + k)%nat) (nth_error l k).
Proof.
  revert i k; induction l as [| v l IH]; intros i k.
  - destruct k; reflexivity.
  - destruct k as [| k]; cbn [mapi_from nth_error option_map].
    + rewrite Nat.add_0_r; reflexivity.
    + rewrite IH; destruct (nth_error l k); cbn [option_map];
        [do 2 f_equal; lia | reflexivity].
Qed.

Lemma length_mapi_from {A B : Type} (f : A -> nat -> B) (l : list A)
    (i : nat) :
  List.length (mapi_from f i l) = List.length l.
Proof.
  revert i; induction l as [| v l IH]; intros i; cbn [mapi_from List.length];
    [reflexivity | rewrite IH; reflexivity].
Qed.

Lemma index_nth_error (l : list number) (i : nat) :
  index l i = match nth_error l i with Some v => v | None => NaN end.
Proof.
  unfold index; revert i; induction l as [| v l IH]; intros [| i];
    cbn [nth nth_error]; auto.
Qed.

(** [standardScale] keeps the length of its argument, but only five means
    and deviations exist: every position from the sixth on is scaled with
    [undefined] and becomes [NaN].  [forestPredict] reads the first five
    positions only, so the extra entries never reach the prediction. *)
Theorem standardScale_beyond_five (l : list number) :
  List.length (standardScale l) = List.length l /\
  (forall i, (5 <= i)%nat -> index (standardScale l) i = NaN) /\
  (forall a b c d e, l = [a; b; c; d; e] ->
     forall rest,
       forestPredict (standardScale (l ++ rest))
       = forestPredict (standardScale l)).
Proof.
  split; [apply length_mapi_from | split].
  - intros i Hi; rewrite index_nth_error.
    unfold standardScale, mapi; rewrite nth_error_mapi_from.
    destruct (nth_error l i) as [v |]; cbn [option_map Nat.add];
      [| reflexivity].
    assert (Hm : index SCALER_MEANS i = NaN)
      by (unfold index; apply nth_overflow; simpl; lia).
    rewrite Hm; destruct v; reflexivity.
  - intros a b c d e -> rest; reflexivity.
Qed.

(** On five finite raw features the scaler is monotone in every component
    (all five deviations are positive): if [x_i <= y_i] then the scaled
    [x_i] is at most the scaled [y_i]. *)
Theorem standardScale_monotone (xs ys : list R) (i : nat) :
  List.length xs = 5%nat -> List.length ys = 5%nat -> (i < 5)%nat ->
  le (index (map Fin xs) i) (index (map Fin ys) i) = true ->
  le (index (standardScale (map Fin xs)) i)
     (index (standardScale (map Fin ys)) i) = true.
Proof.
  intros Hx Hy Hi.
  destruct xs as [| x0 [| x1 [| x2 [| x3 [| x4 [| ? ?]]]]]];
    try discriminate.
  destruct ys as [| y0 [| y1 [| y2 [| y3 [| y4 [| ? ?]]]]]];
    try discriminate.
  cbn [map]; rewrite !standardScale_Fin.
  destruct i as [| [| [| [| [| i]]]]]; try lia;
    cbn [index nth]; rewrite !le_Fin; intros H; lra.
Qed.

Lemma standardScale_monotone_witness :
  le (index (standardScale (map Fin [20; 1000; 7; 140; 7000])) 2)
     (index (standardScale (map Fin [25; 900; 8; 200; 7200])) 2) = true.
Proof.
  apply (standardScale_monotone
           [20; 1000; 7; 140; 7000] [25; 900; 8; 200; 7200] 2);
    [reflexivity | reflexivity | lia |].
  cbn [map index nth]; apply le_Fin; lra.
Defined.

(** ** The grid on arbitrary arguments *)

Lemma nth_error_map_seq_None {A : Type} (f : nat -> A) (s n i : nat) :
  (n <= i)%nat -> nth_error (map f (seq s n)) i = None.
Proof.
  intros H; apply nth_error_None; rewrite length_map, length_seq; exact H.
Qed.

Lemma cell_at_any (tempRange phRange : number * number) (ec : number)
    (steps i j : nat) :
  cell_at (generateHeatmapData tempRange phRange ec steps) i j =
  if ((i <? steps) && (j <? steps))%nat then
    let t := (fst tempRange
              + of_nat i * ((snd tempRange - fst tempRange)
                            / (of_nat steps - Fin 1)))%js in
    let p := (fst phRange
              + of_nat j * ((snd phRange - fst phRange)
                            / (of_nat steps - Fin 1)))%js in
    Some (spread t p (predictAmmoniaRisk t p ec))
  else None.
Proof.
  unfold cell_at, generateHeatmapData.
  destruct (Nat.ltb_spec i steps) as [Hi | Hi].
  - rewrite nth_error_map_seq by assumption.
    destruct (Nat.ltb_spec j steps) as [Hj | Hj]; cbn [andb].
    + rewrite nth_error_map_seq by assumption; reflexivity.
    + rewrite nth_error_map_seq_None by assumption; reflexivity.
  - rewrite nth_error_map_seq_None by assumption; reflexivity.
Qed.



(** Whatever the ranges, the conductivity and [steps] (zero, one, infinite
    or [NaN] bounds included), the grid is [steps] rows of [steps] cells, so
    [steps = 0] gives the empty array; and the three prediction fields of
    every cell are those of [predictAmmoniaRisk] at that cell's own
    temperature and pH. *)
Theorem generateHeatmapData_cells_consistent
    (tempRange phRange : number * number) (ec : number) (steps : nat) :
  let grid := generateHeatmapData tempRange phRange ec steps in
  List.length grid = steps /\
  Forall (fun row => List.length row = steps) grid /\
  (steps = 0%nat -> grid = []) /\
  (forall i j cell, cell_at grid i j = Some cell ->
     (i < steps)%nat /\ (j < steps)%nat /\
     cell = spread (Cell.temp cell) (Cell.pH cell)
              (predictAmmoniaRisk (Cell.temp cell) (Cell.pH cell) ec)).
Proof.
  cbv zeta; split; [| split; [| split]].
  - unfold generateHeatmapData; rewrite length_map, length_seq; reflexivity.
  - unfold generateHeatmapData; apply Forall_forall; intros row Hin.
    apply in_map_iff in Hin; destruct Hin as (i & <- & _).
    rewrite length_map, length_seq; reflexivity.
  - intros ->; reflexivity.
  - intros i j cell; rewrite cell_at_any.
    destruct (Nat.ltb_spec i steps), (Nat.ltb_spec j steps);
      cbn [andb]; try discriminate.
    intros E; injection E as <-; repeat split; assumption.
Qed.

(** All cells of a row carry the same temperature and all cells of a column
    the same pH: the grid is a product of two sample lists. *)
Theorem generateHeatmapData_rows_and_columns
    (tempRange phRange : number * number) (ec : number) (steps : nat)
    (i i' j j' : nat) (c1 c2 c3 : Cell.t) :
  cell_at (generateHeatmapData tempRange phRange ec steps) i j = Some c1 ->
  cell_at (generateHeatmapData tempRange phRange ec steps) i j' = Some c2 ->
  cell_at (generateHeatmapData tempRange phRange ec steps) i' j = Some c3 ->
  Cell.temp c1 = Cell.temp c2 /\ Cell.pH c1 = Cell.pH c3.
Proof.
  rewrite !cell_at_any.
  destruct (Nat.ltb_spec i steps), (Nat.ltb_spec j steps),
    (Nat.ltb_spec i' steps), (Nat.ltb_spec j' steps);
    cbn [andb]; try discriminate.
  intros E1 E2 E3; injection E1 as <-; injection E2 as <-;
    injection E3 as <-; split; reflexivity.
Qed.

Lemma generateHeatmapData_rows_and_columns_witness :
  exists c1 c2 c3,
    cell_at (generateHeatmapData (Fin 20, Fin 30) (Fin 6, Fin 9) (Fin 1200) 3)
      1 0 = Some c1 /\
    cell_at (generateHeatmapData (Fin 20, Fin 30) (Fin 6, Fin 9) (Fin 1200) 3)
      1 2 = Some c2 /\
    cell_at (generateHeatmapData (Fin 20, Fin 30) (Fin 6, Fin 9) (Fin 1200) 3)
      2 0 = Some c3 /\
    Cell.temp c1 = Cell.temp c2 /\ Cell.pH c1 = Cell.pH c3.
Proof.
  pose proof (generateHeatmapData_cell 20 30 6 9 (Fin 1200) 3 1 0
                ltac:(lia) ltac:(lia) ltac:(lia)) as H1.
  pose proof (generateHeatmapData_cell 20 30 6 9 (Fin 1200) 3 1 2
                ltac:(lia) ltac:(lia) ltac:(lia)) as H2.
  pose proof (generateHeatmapData_cell 20 30 6 9 (Fin 1200) 3 2 0
                ltac:(lia) ltac:(lia) ltac:(lia)) as H3.
  eexists; eexists; eexists.
  split; [exact H1 | split; [exact H2 | split; [exact H3 |]]].
  exact (generateHeatmapData_rows_and_columns (Fin 20, Fin 30) (Fin 6, Fin 9)
           (Fin 1200) 3 1 2 0 2 _ _ _ H1 H2 H3).
Defined.

Lemma sample_nondecreasing (lo hi : R) (steps i i' : nat) :
  (2 <= steps)%nat -> lo <= hi -> (i <= i')%nat ->
  sample lo hi steps i <= sample lo hi steps i'.
Proof.
  intros Hs Hlh Hi; unfold sample.
  apply le_INR in Hs; simpl in Hs; apply le_INR in Hi.
  assert (Hstep : 0 <= (hi - lo) / (INR steps - 1)).
  { apply Rmult_le_pos; [lra | left; apply Rinv_0_lt_compat; lra]. }
  apply Rplus_le_compat_l, Rmult_le_compat_r; assumption.
Qed.

(** With [steps >= 2] and real ranges with [lo <= hi] (endpoints of
    magnitude at most [1e300]), temperatures never decrease from one row to
    the next and pH values from one column to the next, and none of them is
    below the low end of its range. *)
Theorem generateHeatmapData_samples_ordered (a b c d : R) (ec : number)
    (steps i i' j j' : nat) :
  (2 <= steps)%nat -> a <= b -> c <= d ->
  Rabs a <= 10 ^ 300 -> Rabs b <= 10 ^ 300 ->
  Rabs c <= 10 ^ 300 -> Rabs d <= 10 ^ 300 ->
  (i <= i')%nat -> (i' < steps)%nat -> (j <= j')%nat -> (j' < steps)%nat ->
  exists t t' p p',
    option_map (fun cell => (Cell.temp cell, Cell.pH cell))
      (cell_at (generateHeatmapData (Fin a, Fin b) (Fin c, Fin d) ec steps)
               i j) = Some (t, p) /\
    option_map (fun cell => (Cell.temp cell, Cell.pH cell))
      (cell_at (generateHeatmapData (Fin a, Fin b) (Fin c, Fin d) ec steps)
               i' j') = Some (t', p') /\
    le (Fin a) t = true /\ le t t' = true /\
    le (Fin c) p = true /\ le p p' = true.
Proof.
  intros Hs Hab Hcd _ _ _ _ Hi Hi' Hj Hj'.
  exists (Fin (sample a b steps i)), (Fin (sample a b steps i')),
    (Fin (sample c d steps j)), (Fin (sample c d steps j')).
  rewrite !generateHeatmapData_cell by lia.
  split; [reflexivity | split; [reflexivity |]].
  rewrite !le_Fin.
  pose proof (sample_nondecreasing a b steps i i' Hs Hab Hi).
  pose proof (sample_nondecreasing c d steps j j' Hs Hcd Hj).
  pose proof (sample_nondecreasing a b steps 0 i Hs Hab ltac:(lia)) as Ha.
  pose proof (sample_nondecreasing c d steps 0 j Hs Hcd ltac:(lia)) as Hc.
  rewrite sample_first in Ha, Hc.
  repeat split; assumption.
Qed.

Lemma generateHeatmapData_samples_ordered_witness :
  exists t t' p p',
    option_map (fun cell => (Cell.temp cell, Cell.pH cell))
      (cell_at (generateHeatmapData (Fin 20, Fin 30) (Fin 6, Fin 9)
                  (Fin 1200) 3) 0 1) = Some (t, p) /\
    option_map (fun cell => (Cell.temp cell, Cell.pH cell))
      (cell_at (generateHeatmapData (Fin 20, Fin 30) (Fin 6, Fin 9)
                  (Fin 1200) 3) 1 2) = Some (t', p') /\
    le (Fin 20) t = true /\ le t t' = true /\
    le (Fin 6) p = true /\ le p p' = true.
Proof.
  assert (H : forall x, 0 <= x <= 30 -> Rabs x <= 10 ^ 300).
  { intros x Hx; rewrite Rabs_right by lra.
    apply Rle_trans with (10 ^ 2); [simpl; lra | apply Rle_pow; [lra | lia]]. }
  apply (generateHeatmapData_samples_ordered 20 30 6 9 (Fin 1200) 3 0 1 1 2);
    try lia; try (apply H; lra); lra.
Defined.

(** * The procedural tree ensemble *)

Lemma makeTree_S (depth' : nat) (baseLeaf : number)
    (featureBias : list number) :
  makeTree (S depth') baseLeaf featureBias =
  split_node (S depth' mod 5)
    (or_else (index featureBias (S depth' mod 5)) (Fin 0))
    (makeTree depth' (baseLeaf * Fin 0.92)%js
       (mapi (fun v i => if (i =? S depth' mod 5)%nat
                         then (v - Fin 0.3)%js else v) featureBias))
    (makeTree depth' (baseLeaf * Fin 1.08)%js
       (mapi (fun v i => if (i =? S depth' mod 5)%nat
                         then (v + Fin 0.3)%js else v) featureBias)).
Proof. reflexivity. Qed.

(** [makeTree depth] builds a perfect binary tree: every leaf sits exactly
    [depth] comparisons below the root, and there are [2 ^ depth] leaves. *)
Theorem makeTree_perfect (depth : nat) (baseLeaf : number)
    (featureBias : list number) :
  perfect depth (makeTree depth baseLeaf featureBias) /\
  count_leaves (makeTree depth baseLeaf featureBias) = (2 ^ depth)%nat.
Proof.
  revert baseLeaf featureBias; induction depth as [| d IH];
    intros baseLeaf featureBias.
  - split; reflexivity.
  - rewrite makeTree_S; cbn [perfect count_leaves].
    destruct (IH (baseLeaf * Fin 0.92)%js
                (mapi (fun v i => if (i =? S d mod 5)%nat
                                  then (v - Fin 0.3)%js else v) featureBias))
      as [Hp1 Hc1].
    destruct (IH (baseLeaf * Fin 1.08)%js
                (mapi (fun v i => if (i =? S d mod 5)%nat
                                  then (v + Fin 0.3)%js else v) featureBias))
      as [Hp2 Hc2].
    split; [split; assumption |].
    rewrite Hc1, Hc2; cbn [Nat.pow]; lia.
Qed.


Lemma le_NaN_l (a : number) : le NaN a = false.
Proof. destruct a; reflexivity. Qed.

(** A feature vector whose entries are all missing or [NaN] fails every
    comparison [x[f] <= threshold], so it is routed to the right at every
    node: the prediction is the base leaf multiplied [depth] times by
    [1.08], the leaf at the far right. *)
Theorem predictTree_NaN_goes_right (depth : nat) (baseLeaf : number)
    (featureBias x : list number) :
  (forall i, index x i = NaN) ->
  predictTree (makeTree depth baseLeaf featureBias) x
  = Nat.iter depth (fun acc => (acc * Fin 1.08)%js) baseLeaf.
Proof.
  intros Hx; revert baseLeaf featureBias; induction depth as [| d IH];
    intros baseLeaf featureBias.
  - reflexivity.
  - rewrite makeTree_S; cbn [predictTree].
    rewrite Hx, le_NaN_l, IH, Nat.iter_succ_r; reflexivity.
Qed.

Lemma predictTree_NaN_goes_right_witness :
  predictTree (makeTree 4 (Fin 1) [Fin 0; Fin 0; Fin 0; Fin 0; Fin 0]) []
  = (Fin 1 * Fin 1.08 * Fin 1.08 * Fin 1.08 * Fin 1.08)%js.
Proof.
  apply (predictTree_NaN_goes_right 4 (Fin 1)
           [Fin 0; Fin 0; Fin 0; Fin 0; Fin 0] []).
  intros [| i]; reflexivity.
Defined.

(** A tree of depth at most four (the engine's trees are depth 4) never
    compares feature 0, the temperature: the node at height [r] tests
    feature [r mod 5].  Its prediction depends on features 1 to 4 only. *)
Theorem makeTree_shallow_ignores_feature_0 (depth : nat) (baseLeaf : number)
    (featureBias : list number) :
  (depth <= 4)%nat ->
  ~ In 0%nat (features_of (makeTree depth baseLeaf featureBias)) /\
  (forall x y,
     (forall i, (1 <= i <= 4)%nat -> index x i = index y i) ->
     predictTree (makeTree depth baseLeaf featureBias) x
     = predictTree (makeTree depth baseLeaf featureBias) y).
Proof.
  revert baseLeaf featureBias; induction depth as [| d IH];
    intros baseLeaf featureBias Hd.
  - split; [intros [] | reflexivity].
  - rewrite makeTree_S, Nat.mod_small by lia.
    destruct (IH (baseLeaf * Fin 0.92)%js
                (mapi (fun v i => if (i =? S d)%nat
                                  then (v - Fin 0.3)%js else v) featureBias))
      as [Hn1 He1]; [lia |].
    destruct (IH (baseLeaf * Fin 1.08)%js
                (mapi (fun v i => if (i =? S d)%nat
                                  then (v + Fin 0.3)%js else v) featureBias))
      as [Hn2 He2]; [lia |].
    split.
    + cbn [features_of]; intros [H | H]; [discriminate |].
      apply in_app_or in H; tauto.
    + intros x y Hxy; cbn [predictTree].
      rewrite (Hxy (S d)) by lia.
      rewrite (He1 x y Hxy), (He2 x y Hxy); reflexivity.
Qed.

Lemma makeTree_shallow_ignores_feature_0_witness :
  predictTree (makeTree 4 (Fin 1) [Fin 0; Fin 0; Fin 0; Fin 0; Fin 0])
    [Fin 5; Fin 1; Fin 2; Fin 3; Fin 4]
  = predictTree (makeTree 4 (Fin 1) [Fin 0; Fin 0; Fin 0; Fin 0; Fin 0])
      [Fin (-7); Fin 1; Fin 2; Fin 3; Fin 4].
Proof.
  destruct (makeTree_shallow_ignores_feature_0 4 (Fin 1)
              [Fin 0; Fin 0; Fin 0; Fin 0; Fin 0]) as [_ H]; [lia |].
  apply H; intros [| [| [| [| [| i]]]]] Hi; try lia; reflexivity.
Defined.

Lemma or_else_not_NaN (v : number) : isNaN (or_else v (Fin 0)) = false.
Proof. unfold or_else; destruct v; try reflexivity; destruct (truthy _); reflexivity. Qed.

(** No node of a made tree carries a [NaN] threshold, whatever the bias
    array holds (missing, zero and [NaN] biases all fall back to [0]): a
    comparison can only fail because of the feature value. *)
Theorem makeTree_thresholds_not_NaN (depth : nat) (baseLeaf : number)
    (featureBias : list number) :
  Forall (fun th => isNaN th = false)
         (thresholds_of (makeTree depth baseLeaf featureBias)).
Proof.
  revert baseLeaf featureBias; induction depth as [| d IH];
    intros baseLeaf featureBias.
  - constructor.
  - rewrite makeTree_S; cbn [thresholds_of].
    constructor; [apply or_else_not_NaN |].
    apply Forall_app; split; apply IH.
Qed.

(** * The dashboard *)

Lemma in_range_Fin (a : number) (lo hi : R) :
  isNaN a = false -> lt a (Fin lo) = false -> gt a (Fin hi) = false ->
  exists x, a = Fin x /\ lo <= x <= hi.
Proof.
  unfold gt; destruct a as [ | | x | ]; cbn [isNaN lt]; try discriminate.
  rewrite !Rltb_false; intros _ H1 H2; exists x; split; [reflexivity | lra].
Qed.

Lemma out_of_range_Fin (x lo hi : R) :
  lo <= x <= hi -> lt (Fin x) (Fin lo) || gt (Fin x) (Fin hi) = false.
Proof.
  intros H; unfold gt; cbn [lt]; apply orb_false_iff.
  rewrite !Rltb_false; lra.
Qed.

Lemma validate_accept (parseFloat : String.string -> number)
    (s : HomeScreen.state) (t p e : R) :
  parseFloat (HomeScreen.temp s) = Fin t ->
  parseFloat (HomeScreen.pH s) = Fin p ->
  parseFloat (HomeScreen.ec s) = Fin e ->
  5 <= t <= 40 -> 5 <= p <= 10 -> 50 <= e <= 3000 ->
  validate parseFloat s
  = (HomeScreen.setError s String.EmptyString, Some (Fin t, Fin p, Fin e)).
Proof.
  intros Et Ep Ee Ht Hp He; unfold validate; rewrite Et, Ep, Ee.
  cbn [isNaN orb].
  rewrite !out_of_range_Fin by assumption; reflexivity.
Qed.

Lemma validate_reject (parseFloat : String.string -> number)
    (s : HomeScreen.state) :
  ~ (exists t p e : R,
       parseFloat (HomeScreen.temp s) = Fin t /\
       parseFloat (HomeScreen.pH s) = Fin p /\
       parseFloat (HomeScreen.ec s) = Fin e /\
       5 <= t <= 40 /\ 5 <= p <= 10 /\ 50 <= e <= 3000) ->
  exists msg, msg <> String.EmptyString /\
              validate parseFloat s = (HomeScreen.setError s msg, None).
Proof.
  intros Hno; unfold validate.
  destruct (isNaN (parseFloat (HomeScreen.temp s))
            || isNaN (parseFloat (HomeScreen.pH s))
            || isNaN (parseFloat (HomeScreen.ec s))) eqn:Hnan;
    [eexists; split; [| reflexivity]; discriminate |].
  apply orb_false_iff in Hnan; destruct Hnan as [Hnan He0].
  apply orb_false_iff in Hnan; destruct Hnan as [Ht0 Hp0].
  destruct (lt (parseFloat (HomeScreen.temp s)) (Fin 5)
            || gt (parseFloat (HomeScreen.temp s)) (Fin 40)) eqn:Ht;
    [eexists; split; [| reflexivity]; discriminate |].
  destruct (lt (parseFloat (HomeScreen.pH s)) (Fin 5)
            || gt (parseFloat (HomeScreen.pH s)) (Fin 10)) eqn:Hp;
    [eexists; split; [| reflexivity]; discriminate |].
  destruct (lt (parseFloat (HomeScreen.ec s)) (Fin 50)
            || gt (parseFloat (HomeScreen.ec s)) (Fin 3000)) eqn:He;
    [eexists; split; [| reflexivity]; discriminate |].
  exfalso; apply Hno.
  apply orb_false_iff in Ht, Hp, He.
  destruct Ht as [Ht1 Ht2], Hp as [Hp1 Hp2], He as [He1 He2].
  destruct (in_range_Fin _ _ _ Ht0 Ht1 Ht2) as (t & Et & Ht).
  destruct (in_range_Fin _ _ _ Hp0 Hp1 Hp2) as (p & Ep & Hp).
  destruct (in_range_Fin _ _ _ He0 He1 He2) as (e & Ee & He).
  exists t, p, e; auto 10.
Qed.

(** [validate] accepts exactly the triples that parse to finite numbers with
    temperature in [5, 40], pH in [5, 10] and conductivity in [50, 3000]
    ([NaN] and the infinities are refused).  On acceptance it returns the
    parsed triple and clears the error line; otherwise it returns [null] and
    writes a non-empty error.  It touches no other part of the state. *)
Theorem validate_accepts_exactly_the_domain
    (parseFloat : String.string -> number) (s : HomeScreen.state) :
  let accepted :=
    exists t p e : R,
      parseFloat (HomeScreen.temp s) = Fin t /\
      parseFloat (HomeScreen.pH s) = Fin p /\
      parseFloat (HomeScreen.ec s) = Fin e /\
      5 <= t <= 40 /\ 5 <= p <= 10 /\ 50 <= e <= 3000 in
  (accepted ->
   snd (validate parseFloat s)
   = Some (parseFloat (HomeScreen.temp s), parseFloat (HomeScreen.pH s),
           parseFloat (HomeScreen.ec s)) /\
   HomeScreen.error (fst (validate parseFloat s)) = String.EmptyString) /\
  (~ accepted ->
   snd (validate parseFloat s) = None /\
   HomeScreen.error (fst (validate parseFloat s)) <> String.EmptyString) /\
  exists msg, fst (validate parseFloat s) = HomeScreen.setError s msg.
Proof.
  cbv zeta; split; [| split].
  - intros (t & p & e & Et & Ep & Ee & Ht & Hp & He).
    rewrite (validate_accept parseFloat s t p e) by assumption.
    rewrite Et, Ep, Ee; split; reflexivity.
  - intros Hno; destruct (validate_reject parseFloat s Hno) as (msg & Hm & ->).
    split; [reflexivity | exact Hm].
  - match goal with
    | |- context [validate parseFloat s] =>
        destruct (Classical_Prop.classic
                    (exists t p e : R,
                        parseFloat (HomeScreen.temp s) = Fin t /\
                        parseFloat (HomeScreen.pH s) = Fin p /\
                        parseFloat (HomeScreen.ec s) = Fin e /\
                        5 <= t <= 40 /\ 5 <= p <= 10 /\ 50 <= e <= 3000))
          as [(t & p & e & Et & Ep & Ee & Ht & Hp & He) | Hno]
    end.
    + rewrite (validate_accept parseFloat s t p e) by assumption.
      eexists; reflexivity.
    + destruct (validate_reject parseFloat s Hno) as (msg & _ & ->).
      eexists; reflexivity.
Qed.

Local Open Scope string_scope.

Lemma validate_accepts_exactly_the_domain_witness :
  let parseFloat := fun str =>
    if String.eqb str "28" then Fin 28
    else if String.eqb str "7.5" then Fin 7.5
    else if String.eqb str "1200" then Fin 1200
    else NaN in
  let s := {| HomeScreen.temp := "28"; HomeScreen.pH := "7.5";
              HomeScreen.ec := "1200"; HomeScreen.result := None;
              HomeScreen.error := "old" |} in
  snd (validate parseFloat s) = Some (Fin 28, Fin 7.5, Fin 1200) /\
  HomeScreen.error (fst (validate parseFloat s)) = "".
Proof.
  intros parseFloat s.
  destruct (validate_accepts_exactly_the_domain parseFloat s) as [H _].
  apply H; exists 28, 7.5, 1200.
  repeat split; try reflexivity; lra.
Defined.

Local Close Scope string_scope.

(** [handlePredict] on a rejected form keeps the previous result on screen
    (only the error line changes); on an accepted form it stores the
    prediction for the parsed triple, clears the error, and the stored
    concentrations are finite with [0 <= toxicNH3 <= TAN]. *)
Theorem handlePredict_outcomes
    (parseFloat : String.string -> number) (s : HomeScreen.state) :
  (snd (validate parseFloat s) = None ->
   HomeScreen.result (handlePredict parseFloat s) = HomeScreen.result s /\
   HomeScreen.error (handlePredict parseFloat s) <> String.EmptyString) /\
  (forall t p e, snd (validate parseFloat s) = Some (t, p, e) ->
   HomeScreen.result (handlePredict parseFloat s)
   = Some (predictAmmoniaRisk t p e) /\
   HomeScreen.error (handlePredict parseFloat s) = String.EmptyString /\
   exists tan tox,
     TAN (predictAmmoniaRisk t p e) = Fin tan /\
     toxicNH3 (predictAmmoniaRisk t p e) = Fin tox /\
     0 <= tox <= tan) /\
  HomeScreen.temp (handlePredict parseFloat s) = HomeScreen.temp s /\
  HomeScreen.pH (handlePredict parseFloat s) = HomeScreen.pH s /\
  HomeScreen.ec (handlePredict parseFloat s) = HomeScreen.ec s.
Proof.
  unfold handlePredict.
  destruct (Classical_Prop.classic
              (exists t p e : R,
                  parseFloat (HomeScreen.temp s) = Fin t /\
                  parseFloat (HomeScreen.pH s) = Fin p /\
                  parseFloat (HomeScreen.ec s) = Fin e /\
                  5 <= t <= 40 /\ 5 <= p <= 10 /\ 50 <= e <= 3000))
    as [(t & p & e & Et & Ep & Ee & Ht & Hp & He) | Hno].
  - rewrite (validate_accept parseFloat s t p e) by assumption.
    cbn [snd]; split; [discriminate | split].
    + intros t' p' e' E; injection E as <- <- <-.
      split; [reflexivity | split; [reflexivity |]].
      destruct (predictAmmoniaRisk_concentrations_Fin t p e)
        as (tan & tox & H1 & H2 & H3 & _).
      exists tan, tox; auto.
    + repeat split.
  - destruct (validate_reject parseFloat s Hno) as (msg & Hm & ->).
    cbn [snd]; split; [| split].
    + intros _; split; [reflexivity | exact Hm].
    + discriminate.
    + repeat split.
Qed.

(** ** The gauge *)

Lemma gauge_color_cases (x : number) :
  Gauge.barColor (GaugeBar x default_maxValue)
  = riskColor (Some {| TAN := x; toxicNH3 := x; risk := classifyRisk x |})
  <-> isNaN x = false /\ x <> Fin 0.05 /\ x <> Fin 0.34.
Proof.
  unfold GaugeBar, default_maxValue, riskColor, classifyRisk, gt;
    cbn [Gauge.barColor risk].
  destruct x as [ | | v | ].
  - cbn; split; [discriminate | intros [H _]; discriminate].
  - rewrite NInf_div_pos by lra; cbn.
    split; [intros _; repeat split; discriminate | reflexivity].
  - rewrite div_Fin by lra; cbn [Math_min lt isNaN].
    unfold C.critical, C.warning, C.safe.
    js_cases; (split;
      [ intros H; try discriminate H; repeat split; try reflexivity;
        intros E; injection E as E; lra
      | intros (_ & H5 & H34); try reflexivity; exfalso;
        try (apply H5; f_equal; lra); try (apply H34; f_equal; lra); lra ]).
  - rewrite PInf_div_pos by lra; cbn.
    js_cases; js_done;
      split; [intros _; repeat split; discriminate | reflexivity].
Qed.

(** The fill color of the gauge agrees with the verdict's color for every
    prediction except in three cases: a toxic value of exactly [0.05] (gauge
    green, verdict WARNING), exactly [0.34] (gauge yellow, verdict CRITICAL)
    and [NaN] (gauge green, verdict CRITICAL) — the gauge compares with [>]
    where the classifier uses [<] on the other side. *)
Theorem gauge_color_matches_verdict (temp_c pH ec : number) :
  let r := predictAmmoniaRisk temp_c pH ec in
  Gauge.barColor (GaugeBar (gauge_value (Some r)) default_maxValue)
  = riskColor (Some r)
  <-> isNaN (toxicNH3 r) = false /\
      toxicNH3 r <> Fin 0.05 /\ toxicNH3 r <> Fin 0.34.
Proof.
  cbv zeta; rewrite <- gauge_color_cases.
  unfold riskColor, gauge_value; cbn [risk].
  unfold predictAmmoniaRisk at 2 4; cbn [risk toxicNH3].
  rewrite classifyRisk_floor; reflexivity.
Qed.

(** For a finite non-negative value and a positive [maxValue] the filled
    share is between [0] and [1], and the gauge is full exactly when the
    value reaches [maxValue] ([0.5] mg/L by default). *)
Theorem GaugeBar_pct_range (value maxValue : R) :
  0 <= value -> 0 < maxValue ->
  exists q, Gauge.pct (GaugeBar (Fin value) (Fin maxValue)) = Fin q /\
            0 <= q <= 1 /\ (q = 1 <-> maxValue <= value).
Proof.
  intros Hv Hm; unfold GaugeBar; cbn [Gauge.pct].
  rewrite div_Fin by lra; cbn [Math_min].
  eexists; split; [reflexivity |].
  assert (H0 : 0 <= value / maxValue)
    by (apply Rmult_le_pos; [lra | left; apply Rinv_0_lt_compat; lra]).
  assert (H1 : value / maxValue < 1 <-> value < maxValue).
  { split; intros H.
    - apply Rmult_lt_reg_r with (/ maxValue);
        [apply Rinv_0_lt_compat; lra |].
      rewrite Rinv_r by lra; exact H.
    - apply Rmult_lt_reg_r with maxValue; [lra |].
      unfold Rdiv; rewrite Rmult_assoc, Rinv_l by lra; lra. }
  unfold Rmin; js_cases; repeat split; intros; lra.
Qed.

Lemma GaugeBar_pct_range_witness :
  exists q, Gauge.pct (GaugeBar (Fin 0.2) (Fin 0.5)) = Fin q /\
            0 <= q <= 1 /\ (q = 1 <-> 0.5 <= 0.2).
Proof. apply GaugeBar_pct_range; lra. Defined.

Local Open Scope string_scope.

Lemma handlePredict_outcomes_witness :
  let parseFloat := fun str =>
    if String.eqb str "28" then Fin 28
    else if String.eqb str "7.5" then Fin 7.5
    else if String.eqb str "1200" then Fin 1200
    else NaN in
  let s := {| HomeScreen.temp := "28"; HomeScreen.pH := "7.5";
              HomeScreen.ec := "1200"; HomeScreen.result := None;
              HomeScreen.error := "old" |} in
  HomeScreen.result (handlePredict parseFloat s)
  = Some (predictAmmoniaRisk (Fin 28) (Fin 7.5) (Fin 1200)) /\
  HomeScreen.error (handlePredict parseFloat s) = "".
Proof.
  intros parseFloat s.
  destruct (handlePredict_outcomes parseFloat s) as (_ & H & _).
  destruct (H (Fin 28) (Fin 7.5) (Fin 1200)) as (H1 & H2 & _).
  - rewrite (validate_accept parseFloat s 28 7.5 1200);
      try reflexivity; lra.
  - split; assumption.
Defined.

Local Close Scope string_scope.

(** * More on the classifier and the equilibrium *)

(** The classifier is monotone: a larger toxic concentration never gets a
    milder tier. *)
Theorem classifyRisk_monotone (x y : number) :
  le x y = true ->
  (severity (classifyRisk x) <= severity (classifyRisk y))%nat.
Proof.
  unfold classifyRisk; destruct x as [ | | a | ], y as [ | | b | ];
    cbn [le lt]; try discriminate; intros H;
    try rewrite negb_true_iff, Rltb_false in H;
    js_cases; cbn [severity]; try lia; lra.
Qed.

Lemma classifyRisk_monotone_witness :
  (severity (classifyRisk (Fin 0.04)) <= severity (classifyRisk (Fin 0.4)))%nat.
Proof.
  apply classifyRisk_monotone; cbn [le].
  rewrite negb_true_iff, Rltb_false; lra.
Defined.

(** For a non-negative finite TAN and any finite temperature and pH the
    converter returns a finite share of it, between [0] and TAN.  At
    absolute zero the division [2729.92 / 0] does not fail: it makes the
    share [0]. *)
Theorem emersonPhysics_share (tan t p : R) :
  0 <= tan ->
  exists y, emersonPhysics (Fin tan) (Fin t) (Fin p) = Fin y /\
            0 <= y <= tan /\ (t + 273.15 = 0 -> y = 0).
Proof.
  intros Htan.
  destruct (Req_dec_T (t + 273.15) 0) as [H | H].
  - rewrite emersonPhysics_abs_zero by assumption.
    eexists; split; [reflexivity |]; split; [lra | intros _; lra].
  - rewrite emersonPhysics_Fin by assumption.
    pose proof (fraction_of_pos t p); pose proof (fraction_of_lt_1 t p).
    eexists; split; [reflexivity |]; split; [nra | contradiction].
Qed.

Lemma emersonPhysics_share_witness :
  exists y, emersonPhysics (Fin 2) (Fin (-273.15)) (Fin 7) = Fin y /\
            0 <= y <= 2 /\ (-273.15 + 273.15 = 0 -> y = 0).
Proof. apply emersonPhysics_share; lra. Defined.

(** * Concrete instances *)

Lemma standardScale_beyond_five_witness :
  index (standardScale [Fin 1; Fin 2; Fin 3; Fin 4; Fin 5; Fin 6; Fin 7]) 6
  = NaN.
Proof.
  destruct (standardScale_beyond_five
              [Fin 1; Fin 2; Fin 3; Fin 4; Fin 5; Fin 6; Fin 7])
    as (_ & H & _).
  apply H; lia.
Defined.

Lemma generateHeatmapData_cells_consistent_witness :
  generateHeatmapData (Fin 20, Fin 30) (Fin 6, Fin 9) (Fin 1200) 0 = [].
Proof.
  destruct (generateHeatmapData_cells_consistent (Fin 20, Fin 30)
              (Fin 6, Fin 9) (Fin 1200) 0) as (_ & _ & H & _).
  apply H; reflexivity.
Defined.

(** * What binary64 changes

    Closed evaluations of the binary64 engine at inputs where rounding or
    overflow makes it depart from exact arithmetic. *)

Module B64Facts.
Import PrimFloat.
Local Open Scope float_scope.

(** C4 as stated fails: the finite triple (1e200, -1, 1e200) overflows two
    cross terms of the surrogate to [+Infinity] and [-Infinity]; their sum is
    [NaN], which [Math.tanh], the clamp, [Math.expm1] and [Math.max(0, .)]
    pass through, so the reported TAN is [NaN] and [0 <= TAN] is false. *)
Lemma predictAmmoniaRisk_NaN_on_finite_input :
  is_finite 1e200 = true /\ is_finite (-1) = true /\
  B64.TAN (B64.predictAmmoniaRisk (Some 1e200) (Some (-1)) (Some 1e200))
  = Some nan /\
  leb 0 nan = false.
Proof. repeat split; vm_compute; reflexivity. Qed.


(** Finite features are enough to make the surrogate return [NaN]. *)
Lemma forestPredict_NaN_on_finite_features :
  B64.forestPredict [Some 1e200; Some 1e200; Some 0; Some (-1e200); Some 0]
  = Some nan.
Proof. vm_compute; reflexivity. Qed.

(** Two nearby temperatures give the same [temp_k], hence the same result
    whatever TAN and pH are: the converter is not strictly increasing in
    temperature on binary64 values. *)
Lemma emersonPhysics_ties_in_temperature (tan pH : B64.number) :
  B64.emersonPhysics tan (Some 20) pH
  = B64.emersonPhysics tan (Some 20.000000000000004) pH.
Proof.
  unfold B64.emersonPhysics; cbn [B64.add B64.lift2].
  assert (E : PrimFloat.add 20 273.15
              = PrimFloat.add 20.000000000000004 273.15)
    by (vm_compute; reflexivity).
  rewrite E; reflexivity.
Qed.

(** Two adjacent temperatures are scaled to the same value: the scaler is
    monotone, not one-to-one. *)
Lemma standardScale_collapses_neighbours :
  B64.index (B64.standardScale [Some 5.000000000000001]) 0
  = B64.index (B64.standardScale [Some 5]) 0 /\
  eqb 5.000000000000001 5 = false.
Proof. split; vm_compute; reflexivity. Qed.

(** The single-step grid in binary64: one cell, all of whose numbers are
    [NaN], classified [CRITICAL]. *)
Lemma generateHeatmapData_single_step_binary64 :
  B64.generateHeatmapData (Some 20, Some 30) (Some 6, Some 9) (Some 1200) 1
  = [[ {| B64.cell_temp := Some nan; B64.cell_pH := Some nan;
          B64.cell_result :=
            {| B64.TAN := Some nan; B64.toxicNH3 := Some nan;
               B64.risk := Some CRITICAL |} |} ]].
Proof. vm_compute; reflexivity. Qed.

End B64Facts.
